(** * FaceAttend-KE: face matching and liveness verification

    A shallow embedding of the face pipeline of the attendance backend:

    - [app/config.py]         ([Config])
    - [app/face/engine.py]    ([FaceEngine])
    - [app/face/liveness.py]  ([LivenessChecker])
    - [app/face/routes.py]    ([Routes], the best-match scan of
                               [recognize_face])

    Python floats are modelled as rationals ([Q]): every finite float is one,
    and the code only subtracts a distance from one, divides a count of at
    most three by two or three, and compares.  The subtraction is exact in
    the model and rounded in Python; NaN and the infinities are outside the
    model.

    PIL, numpy, OpenCV and face_recognition are external collaborators.  They
    are taken as a record of oracles ([Libs]); each fallible call returns an
    [outcome] and is logged in a trace, so that whether a call was attempted
    is a statement about the trace.  Theorems are proved for every [Libs];
    the test doubles of [Module Stub] only supply concrete inputs. *)

From Stdlib Require Import ZArith QArith Qabs String Ascii List Bool Lia Lqa.
From Stdlib Require Import DecimalString Permutation.
Import ListNotations.
Open Scope string_scope.
Open Scope list_scope.

(* ================================================================== *)
(** * The Python runtime fragment the code relies on *)
(* ================================================================== *)

Module Py.

(** An exception object: its class and the text [str(e)] yields.  Every
    exception of the model derives from [Exception]: this is what the
    libraries and the interpreter raise synchronously ([OSError],
    [cv2.error], [ValueError], [NameError], [AttributeError], ...). *)
Record exn : Type := Exn { exn_class : string; exn_msg : string }.

Definition str (e : exn) : string := exn_msg e.

Inductive outcome (A : Type) : Type :=
| Returned (a : A)
| Raised (e : exn).
Arguments Returned {A} a.
Arguments Raised {A} e.

(** The external calls a run performs, in order. *)
Inductive libcall : Type :=
| PIL_Image_open
| PIL_convert (mode : string)
| PIL_getexif
| PIL_rotate (angle : Z)
| PIL_save (format : string) (quality : Z)
| FR_load_image_file
| FR_face_locations
| FR_face_encodings
| NP_array
| NP_crop
| CV_cvtColor (code : string)
| CV_Laplacian
| CV_inRange
| CV_CascadeClassifier (path : string)
| CV_detectMultiScale.

Definition trace := list libcall.

(** Computations: they extend the trace and return or raise. *)
Definition M (A : Type) : Type := trace -> outcome A * trace.

Definition ret {A} (a : A) : M A := fun t => (Returned a, t).

Definition bind {A B} (m : M A) (k : A -> M B) : M B :=
  fun t =>
    match m t with
    | (Returned a, t') => k a t'
    | (Raised e, t') => (Raised e, t')
    end.

Definition raise {A} (e : exn) : M A := fun t => (Raised e, t).

(** [try: body / except [Exception as e]: handler e].  In the model a bare
    [except:] and [except Exception] catch the same exceptions. *)
Definition try_except {A} (body : M A) (handler : exn -> M A) : M A :=
  fun t =>
    match body t with
    | (Returned a, t') => (Returned a, t')
    | (Raised e, t') => handler e t'
    end.

(** An external call with a known outcome. *)
Definition call {A} (c : libcall) (o : outcome A) : M A :=
  fun t => (o, t ++ [c]).

(** Running from the empty trace. *)
Definition run {A} (m : M A) : outcome A := fst (m []).
Definition calls {A} (m : M A) : trace := snd (m []).

(** Truthiness of a number and of a string, and [a or b] where [a] may be
    [None]. *)
Definition truthy_num (q : Q) : bool := negb (Qeq_bool q 0).
Definition truthy_str (s : string) : bool := negb (String.eqb s "").

Definition or_num (a : option Q) (b : Q) : Q :=
  match a with
  | Some q => if truthy_num q then q else b
  | None => b
  end.

Definition or_str (a : option string) (b : string) : string :=
  match a with
  | Some s => if truthy_str s then s else b
  | None => b
  end.

(** [a > b] and [a < b] on floats. *)
Definition Qlt_bool (a b : Q) : bool := negb (Qle_bool b a).

(** [str(n)] of an integer, for f-strings. *)
Definition str_int (n : Z) : string :=
  NilZero.string_of_int (Z.to_int n).

End Py.

Import Py.
Declare Scope py_scope.
Delimit Scope py_scope with py.
Notation "x <- c ;; k" := (Py.bind c (fun x => k))
  (at level 100, c at next level, right associativity) : py_scope.
Notation "c ;;; k" := (Py.bind c (fun _ => k))
  (at level 100, right associativity) : py_scope.
Notation "' pat <- c ;; k" := (Py.bind c (fun x => let pat := x in k))
  (at level 100, pat pattern, c at next level, right associativity) : py_scope.

(* ================================================================== *)
(** * Data shared by the components *)
(* ================================================================== *)

(** A face encoding: the vector [np.array(user.face_encoding)]. *)
Definition encoding := list Q.

(** A face location [(top, right, bottom, left)]. *)
Definition box : Type := (Z * Z * Z * Z)%type.

(** The uploaded buffer. *)
Definition bytes := list Byte.byte.

(** An EXIF dictionary: tag to value. *)
Definition exif := list (Z * Z).

(* ================================================================== *)
(** * app/config.py *)
(* ================================================================== *)

Module Config.

Record t : Type := Make {
  FACE_TOLERANCE : Q;
  FACE_ENCODING_MODEL : string;
  MAX_IMAGE_SIZE_MB : Z
}.

(** The values when the environment sets none of [FACE_TOLERANCE],
    [FACE_MODEL], [MAX_IMAGE_SIZE_MB]. *)
Definition default : t :=
  {| FACE_TOLERANCE := 0.6; FACE_ENCODING_MODEL := "small";
     MAX_IMAGE_SIZE_MB := 5 |}.

End Config.

(* ================================================================== *)
(** * The external libraries *)
(* ================================================================== *)

(** What the pipeline asks of PIL, numpy, OpenCV and face_recognition. *)
Record Libs : Type := {
  pil_image : Type;
  ndarray : Type;
  cascade : Type;
  (* face_recognition: np.linalg.norm(known - unknown) for one known
     encoding, face_locations(image, model=...), load_image_file *)
  norm_diff : encoding -> encoding -> Q;
  face_locations : ndarray -> string -> outcome (list box);
  load_image_file : bytes -> outcome ndarray;
  (* PIL: Image.open, img.mode, img.convert, img._getexif, img.rotate(angle,
     expand=True), img.save(output, format=..., quality=...), ExifTags.TAGS *)
  Image_open : bytes -> outcome pil_image;
  Image_mode : pil_image -> string;
  Image_convert : pil_image -> string -> outcome pil_image;
  Image_getexif : pil_image -> outcome (option exif);
  Image_rotate : pil_image -> Z -> outcome pil_image;
  Image_save : pil_image -> string -> Z -> outcome bytes;
  ExifTags_TAGS : list (Z * string);
  (* numpy: np.array(img), image_array[top:bottom, left:right],
     np.sum(mask > 0), mask.size *)
  np_array : pil_image -> outcome ndarray;
  np_crop : ndarray -> box -> outcome ndarray;
  np_count_positive : ndarray -> Z;
  np_size : ndarray -> Z;
  (* OpenCV: cvtColor, Laplacian(gray, CV_64F).var(), inRange,
     cv2.data.haarcascades, CascadeClassifier, detectMultiScale *)
  cv2_cvtColor : ndarray -> string -> outcome ndarray;
  cv2_Laplacian_var : ndarray -> outcome Q;
  cv2_inRange : ndarray -> Z * Z * Z -> Z * Z * Z -> outcome ndarray;
  cv2_data_haarcascades : string;
  cv2_CascadeClassifier : string -> outcome cascade;
  cv2_detectMultiScale : cascade -> ndarray -> Q -> Z -> outcome (list box)
}.

(** face_recognition's two comparison entry points, as the library defines
    them: [face_distance] is the Euclidean norm of the difference, row by
    row, and [compare_faces] is [list(face_distance(...) <= tolerance)]. *)
Module face_recognition.

Definition face_distance (L : Libs) (face_encodings : list encoding)
    (face_to_compare : encoding) : list Q :=
  map (fun known => norm_diff L known face_to_compare) face_encodings.

Definition compare_faces (L : Libs) (known_face_encodings : list encoding)
    (face_encoding_to_check : encoding) (tolerance : Q) : list bool :=
  map (fun d => Qle_bool d tolerance)
      (face_distance L known_face_encodings face_encoding_to_check).

End face_recognition.

(* ================================================================== *)
(** * app/face/engine.py *)
(* ================================================================== *)

Module FaceEngine.

(** The engine object: [self.tolerance] and [self.model]. *)
Record t : Type := Make { tolerance : Q; model : string }.

(** [__init__(self, tolerance=None, model=None)] *)
Definition __init__ (cfg : Config.t) (tolerance : option Q)
    (model : option string) : t :=
  {| tolerance := or_num tolerance (Config.FACE_TOLERANCE cfg);
     model := or_str model (Config.FACE_ENCODING_MODEL cfg) |}.

(** The dictionary [compare_faces] returns. *)
Record MatchResult : Type := {
  match_ : bool;
  confidence : Q;
  distance : Q
}.

(** [compare_faces(self, known_encoding, unknown_encoding, tolerance=None)].
    Both library results are one-element lists, so the defaults of [nth]
    are never used. *)
Definition compare_faces (L : Libs) (self : t)
    (known_encoding unknown_encoding : encoding) (tolerance : option Q)
    : MatchResult :=
  let tol := or_num tolerance (FaceEngine.tolerance self) in
  let matches :=
    face_recognition.compare_faces L [known_encoding] unknown_encoding tol in
  let distance :=
    nth 0 (face_recognition.face_distance L [known_encoding] unknown_encoding) 0
  in
  {| match_ := nth 0 matches false;
     confidence := 1 - distance;
     distance := distance |}.

(** [detect_faces(self, image)] *)
Definition detect_faces (L : Libs) (self : t) (image : ndarray L)
    : M (list box) :=
  call FR_face_locations (face_locations L image (model self)).

(** The dictionary [validate_image_quality] returns:
    [{'valid': False, 'error': ...}] or
    [{'valid': True, 'face_location': ..., 'dimensions': {'width', 'height'}}]. *)
Inductive ValidationResult : Type :=
| Invalid (error : string)
| Valid (face_location : box) (width height : Z).

Definition valid (r : ValidationResult) : bool :=
  match r with Invalid _ => false | Valid _ _ _ => true end.

(** [validate_image_quality(self, image, min_face_size=80)] *)
Definition validate_image_quality (L : Libs) (self : t) (image : ndarray L)
    (min_face_size : Z) : M ValidationResult :=
  (faces <- detect_faces L self image ;;
   match faces with
   | [] => ret (Invalid "No face detected")
   | face0 :: _ =>
       if (1 <? Z.of_nat (length faces))%Z then
         ret (Invalid "Multiple faces detected")
       else
         let '(top, right_, bottom, left_) := face0 in
         let face_width := (right_ - left_)%Z in
         let face_height := (bottom - top)%Z in
         if (face_width <? min_face_size)%Z || (face_height <? min_face_size)%Z
         then ret (Invalid "Face too small")
         else ret (Valid face0 face_width face_height)
   end)%py.

(** The names engine.py binds at module level (its imports and its class),
    the names bound inside [preprocess_image] (parameters, assignment
    targets, and the two names of its local [from PIL.ExifTags import TAGS,
    GPSTAGS]), and the builtins the module uses. *)
Definition module_globals : list string :=
  ["os"; "np"; "face_recognition"; "Image"; "BytesIO"; "Config"; "FaceEngine"].

Definition preprocess_image_locals : list string :=
  ["self"; "image_bytes"; "max_size_mb"; "img"; "TAGS"; "GPSTAGS";
   "orientation"; "exif"; "output"; "e"].

Definition builtins : list string :=
  ["len"; "isinstance"; "bytes"; "str"; "Exception"].

(** Reading a name that is not a local of the function: module globals,
    then builtins, else [NameError]. *)
Definition load_global (name : string) : M unit :=
  if existsb (String.eqb name) (module_globals ++ builtins) then ret tt
  else raise (Exn "NameError"
                  (String.append "name '"
                     (String.append name "' is not defined"))).

(** Reading a name inside a function whose local names are [locals]: a local
    name is read from the frame, any other name through [load_global]. *)
Definition load_name (locals : list string) (name : string) : M unit :=
  if existsb (String.eqb name) locals then ret tt else load_global name.

(** The [for orientation in ExifTags.TAGS.keys(): ... break] loop: the first
    key named ['Orientation'], else the last key, else unbound. *)
Fixpoint scan_orientation (tags : list (Z * string)) (orientation : option Z)
    : option Z :=
  match tags with
  | [] => orientation
  | (key, name) :: rest =>
      if String.eqb name "Orientation" then Some key
      else scan_orientation rest (Some key)
  end.

(** [orientation in exif] and [exif[orientation]] *)
Fixpoint exif_get (d : exif) (tag : Z) : option Z :=
  match d with
  | [] => None
  | (k, v) :: rest => if (k =? tag)%Z then Some v else exif_get rest tag
  end.

(** Lines 93-102 of [preprocess_image]: what follows the evaluation of
    [ExifTags.TAGS.keys()] inside the inner [try:]; its value is the [img] in
    force when the block ends. *)
Definition orient_from_exif (L : Libs) (img : pil_image L)
    : M (pil_image L) :=
  (let orientation := scan_orientation (ExifTags_TAGS L) None in
   exif <- call PIL_getexif (Image_getexif L img) ;;
   match exif with
   | None => ret img
   | Some [] => ret img
   | Some d =>
       match orientation with
       | None =>
           raise (Exn "UnboundLocalError"
                      "local variable 'orientation' referenced before assignment")
       | Some tag =>
           match exif_get d tag with
           | None => ret img
           | Some v =>
               if (v =? 3)%Z then
                 call (PIL_rotate 180) (Image_rotate L img 180)
               else if (v =? 6)%Z then
                 call (PIL_rotate 270) (Image_rotate L img 270)
               else if (v =? 8)%Z then
                 call (PIL_rotate 90) (Image_rotate L img 90)
               else ret img
           end
       end
   end)%py.

(** The body of the inner [try:] (lines 92-102): the name [ExifTags] is read
    first, then the block above runs. *)
Definition auto_orient (L : Libs) (img : pil_image L) : M (pil_image L) :=
  (load_name preprocess_image_locals "ExifTags" ;;;
   orient_from_exif L img)%py.

(** [preprocess_image(self, image_bytes, max_size_mb=5)]; the pair is
    [(image or None, error or None)].  The function-local import of
    [PIL.ExifTags] succeeds wherever the module's own [from PIL import Image]
    did. *)
Definition preprocess_image (L : Libs) (self : t) (image_bytes : bytes)
    (max_size_mb : Z) : M (option (ndarray L) * option string) :=
  if (max_size_mb * 1024 * 1024 <? Z.of_nat (length image_bytes))%Z then
    ret (None, Some "Image too large")
  else
    try_except
      (load_name preprocess_image_locals "Image" ;;;
       load_name preprocess_image_locals "BytesIO" ;;;
       img <- call PIL_Image_open (Image_open L image_bytes) ;;
       img <- (if negb (String.eqb (Image_mode L img) "RGB")
               then call (PIL_convert "RGB") (Image_convert L img "RGB")
               else ret img) ;;
       img <- try_except (auto_orient L img) (fun _ => ret img) ;;
       load_name preprocess_image_locals "BytesIO" ;;;
       output <- call (PIL_save "JPEG" 85) (Image_save L img "JPEG" 85) ;;
       load_name preprocess_image_locals "face_recognition" ;;;
       image <- call FR_load_image_file (load_image_file L output) ;;
       ret (Some image, None))%py
      (fun e =>
         ret (None, Some (String.append "Image processing error: " (str e)))).

End FaceEngine.

(* ================================================================== *)
(** * app/face/liveness.py *)
(* ================================================================== *)

Module LivenessChecker.

(** Every global name liveness.py reads ([cv2], [np], [Image], [BytesIO],
    [LivenessChecker]) is bound by its imports or is the class itself, so
    reading a name cannot fail here. *)

(** [check_blur(image_array, threshold=100)] *)
Definition check_blur (L : Libs) (image_array : ndarray L) (threshold : Q)
    : M (bool * Q) :=
  (gray <- call (CV_cvtColor "COLOR_RGB2GRAY")
                (cv2_cvtColor L image_array "COLOR_RGB2GRAY") ;;
   fm <- call CV_Laplacian (cv2_Laplacian_var L gray) ;;
   ret (Qlt_bool threshold fm, fm))%py.

(** [check_color_distribution(image_array)].  [mask.size] is positive for
    every array [cvtColor] accepts; on an empty mask numpy yields NaN, which
    fails both comparisons, as the quotient [0] of the model does. *)
Definition check_color_distribution (L : Libs) (image_array : ndarray L)
    : M (bool * Q) :=
  (hsv <- call (CV_cvtColor "COLOR_RGB2HSV")
               (cv2_cvtColor L image_array "COLOR_RGB2HSV") ;;
   let lower_skin := (0, 20, 70)%Z in
   let upper_skin := (20, 255, 255)%Z in
   mask <- call CV_inRange (cv2_inRange L hsv lower_skin upper_skin) ;;
   let skin_ratio :=
     (inject_Z (np_count_positive L mask) / inject_Z (np_size L mask))%Q in
   ret (Qlt_bool 0.15 skin_ratio && Qlt_bool skin_ratio 0.60, skin_ratio))%py.

(** [detect_eyes(image_array, face_location)] *)
Definition detect_eyes (L : Libs) (image_array : ndarray L)
    (face_location : box) : M (bool * Z) :=
  (face <- call NP_crop (np_crop L image_array face_location) ;;
   gray <- call (CV_cvtColor "COLOR_RGB2GRAY")
                (cv2_cvtColor L face "COLOR_RGB2GRAY") ;;
   try_except
     (let path :=
        String.append (cv2_data_haarcascades L) "haarcascade_eye.xml" in
      eye_cascade <- call (CV_CascadeClassifier path)
                          (cv2_CascadeClassifier L path) ;;
      eyes <- call CV_detectMultiScale
                   (cv2_detectMultiScale L eye_cascade gray 1.1 5) ;;
      let n := Z.of_nat (length eyes) in
      ret ((2 <=? n)%Z, n))
     (fun _ => ret (true, 2%Z)))%py.

(** The [results] dictionary of [verify]. *)
Record Checks : Type := {
  blur : bool * Q;                      (* 'passed', 'score' *)
  color_distribution : bool * Q;        (* 'passed', 'ratio' *)
  eyes_detected : option (bool * Z)     (* 'passed', 'count' *)
}.

(** The dictionary [verify] returns; the success and the error dictionary
    differ in the keys they carry. *)
Record LivenessResult : Type := {
  liveness_verified : bool;
  confidence : Q;
  checks : option Checks;
  details : option string;
  error : option string
}.

(** The body of the [try:] of [verify] (lines 61-94).  [face_location] is
    [None] or a 4-tuple, and a 4-tuple is truthy. *)
Definition verify_body (L : Libs) (image_bytes : bytes)
    (face_location : option box) : M LivenessResult :=
  (img <- call PIL_Image_open (Image_open L image_bytes) ;;
   img_array <- call NP_array (np_array L img) ;;
   let passed := 0%Z in
   let total := 0%Z in
   (* Check 1 *)
   let total := (total + 1)%Z in
   r1 <- check_blur L img_array 100 ;;
   let passed := if fst r1 then (passed + 1)%Z else passed in
   (* Check 2 *)
   let total := (total + 1)%Z in
   r2 <- check_color_distribution L img_array ;;
   let passed := if fst r2 then (passed + 1)%Z else passed in
   (* Check 3 *)
   r3 <- match face_location with
         | Some loc =>
             let total := (total + 1)%Z in
             r <- detect_eyes L img_array loc ;;
             let passed := if fst r then (passed + 1)%Z else passed in
             ret (Some r, passed, total)
         | None => ret (None, passed, total)
         end ;;
   let '(eyes, passed, total) := r3 in
   let confidence :=
     if (0 <? total)%Z then (inject_Z passed / inject_Z total)%Q else 0%Q in
   ret {| liveness_verified := Qle_bool 0.7 confidence;
          confidence := confidence;
          checks := Some {| blur := r1; color_distribution := r2;
                            eyes_detected := eyes |};
          details := Some (String.append (str_int passed)
                            (String.append "/"
                               (String.append (str_int total)
                                              " checks passed")));
          error := None |})%py.

(** [verify(image_bytes, face_location=None)] *)
Definition verify (L : Libs) (image_bytes : bytes)
    (face_location : option box) : M LivenessResult :=
  try_except (verify_body L image_bytes face_location)
    (fun e =>
       ret {| liveness_verified := false;
              confidence := 0;
              checks := None;
              details := None;
              error := Some (str e) |}).

End LivenessChecker.

(* ================================================================== *)
(** * app/face/routes.py: the best-match scan of recognize_face *)
(* ================================================================== *)

Module Routes.

(** The columns of [User] the scan reads. *)
Record User : Type := {
  id : Z;
  face_encoding : option encoding;
  is_active : bool;
  consent_given : bool
}.

(** [User.query.filter(User.face_encoding != None, User.is_active == True,
    User.consent_given == True).all()], in the order the query yields. *)
Definition enrolled_users (users : list User) : list User :=
  filter (fun u =>
            match face_encoding u with Some _ => true | None => false end
            && is_active u && consent_given u) users.

(** [np.array(user.face_encoding)]; the query leaves no user without an
    encoding. *)
Definition known_encoding (user : User) : encoding :=
  match face_encoding user with Some e => e | None => [] end.

(** One iteration of the [for user in enrolled_users] loop, on the pair
    [(best_match, best_confidence)]. *)
Definition scan_step (L : Libs) (face_engine : FaceEngine.t)
    (unknown_encoding : encoding) (st : option User * Q) (user : User)
    : option User * Q :=
  let result :=
    FaceEngine.compare_faces L face_engine (known_encoding user)
      unknown_encoding None
  in
  if FaceEngine.match_ result
     && Qlt_bool (snd st) (FaceEngine.confidence result)
  then (Some user, FaceEngine.confidence result)
  else st.

(** Lines 186-196: [best_match = None; best_confidence = 0] and the loop. *)
Definition best_match_scan (L : Libs) (face_engine : FaceEngine.t)
    (enrolled : list User) (unknown_encoding : encoding) : option User * Q :=
  fold_left (scan_step L face_engine unknown_encoding) enrolled (None, 0%Q).

(** Lines 179-199: the user for whom attendance is recorded, with the
    confidence, or [None] when the request ends in "Face not recognized".
    [app_config] is [current_app.config], loaded from the [Config] class, so
    the key [FACE_TOLERANCE] is present and the default of [.get] is unused. *)
Definition recognize_match (L : Libs) (face_engine : FaceEngine.t)
    (app_config : Config.t) (users : list User) (unknown_encoding : encoding)
    : option (User * Q) :=
  let enrolled := enrolled_users users in
  let '(best_match, best_confidence) :=
    best_match_scan L face_engine enrolled unknown_encoding in
  let tolerance := Config.FACE_TOLERANCE app_config in
  match best_match with
  | Some user =>
      if Qle_bool tolerance best_confidence then Some (user, best_confidence)
      else None
  | None => None
  end.

End Routes.

(* ================================================================== *)
(** * Test doubles for the external libraries *)
(* ================================================================== *)

Module Stub.

(** What an upload depicts, as far as the pipeline can tell. *)
Record scene : Type := {
  readable : bool;               (* Image.open identifies the buffer *)
  mode : string;                 (* img.mode *)
  has_getexif : bool;            (* the image class has _getexif *)
  exif_data : option exif;       (* what _getexif returns *)
  faces : list box;              (* what the face detector finds *)
  sharpness : Q;                 (* variance of the Laplacian *)
  skin_pixels : Z;               (* pixels inside the skin range *)
  pixels : Z;                    (* mask.size *)
  eye_cascade_available : bool;  (* the Haar cascade file can be used *)
  eyes : list box                (* what the eye detector finds *)
}.

(** The sum of coordinate-wise absolute differences.  For two encodings that
    differ in at most one coordinate it is the Euclidean norm of their
    difference, which is all the concrete inputs below use. *)
Fixpoint l1_distance (k u : encoding) : Q :=
  match k, u with
  | a :: k', b :: u' => Qabs (a - b) + l1_distance k' u'
  | _, _ => 0
  end.

(** An image or array of the double is the angle, in degrees, by which the
    scene has been turned so far; a saved JPEG is as many bytes as quarter
    turns, so that reloading it recovers the angle. *)
Definition libs (s : scene) : Libs := {|
  pil_image := Z;
  ndarray := Z;
  cascade := unit;
  norm_diff := l1_distance;
  face_locations := fun _ _ => Returned (faces s);
  load_image_file := fun b => Returned (90 * Z.of_nat (length b))%Z;
  Image_open := fun _ =>
    if readable s then Returned 0%Z
    else Raised (Exn "UnidentifiedImageError" "cannot identify image file");
  Image_mode := fun _ => mode s;
  Image_convert := fun img _ => Returned img;
  Image_getexif := fun _ =>
    if has_getexif s then Returned (exif_data s)
    else Raised (Exn "AttributeError"
                     "'Image' object has no attribute '_getexif'");
  Image_rotate := fun img angle => Returned ((img + angle) mod 360)%Z;
  Image_save := fun img _ _ =>
    Returned (repeat Byte.x00 (Z.to_nat (img / 90)));
  ExifTags_TAGS := [(271, "Make"); (274, "Orientation"); (306, "DateTime")]%Z;
  np_array := fun img => Returned img;
  np_crop := fun a _ => Returned a;
  np_count_positive := fun _ => skin_pixels s;
  np_size := fun _ => pixels s;
  cv2_cvtColor := fun a _ => Returned a;
  cv2_Laplacian_var := fun _ => Returned (sharpness s);
  cv2_inRange := fun a _ _ => Returned a;
  cv2_data_haarcascades := "/usr/share/opencv4/haarcascades/";
  cv2_CascadeClassifier := fun _ => Returned tt;
  cv2_detectMultiScale := fun _ _ _ _ =>
    if eye_cascade_available s then Returned (eyes s)
    else Raised (Exn "error" "(-215:Assertion failed) !empty()")
|}.

(** A sharp, plausible portrait with one face and two eyes. *)
Definition portrait : scene := {|
  readable := true;
  mode := "RGB";
  has_getexif := true;
  exif_data := None;
  faces := [(40, 190, 190, 40)%Z];
  sharpness := 250;
  skin_pixels := 30;
  pixels := 100;
  eye_cascade_available := true;
  eyes := [(60, 90, 80, 70)%Z; (60, 160, 80, 140)%Z]
|}.

(** Variants of a scene that differ from it in one respect. *)
Definition with_exif (s : scene) (d : option exif) : scene :=
  {| readable := readable s; mode := mode s; has_getexif := has_getexif s;
     exif_data := d; faces := faces s; sharpness := sharpness s;
     skin_pixels := skin_pixels s; pixels := pixels s;
     eye_cascade_available := eye_cascade_available s; eyes := eyes s |}.

Definition with_faces (s : scene) (f : list box) : scene :=
  {| readable := readable s; mode := mode s; has_getexif := has_getexif s;
     exif_data := exif_data s; faces := f; sharpness := sharpness s;
     skin_pixels := skin_pixels s; pixels := pixels s;
     eye_cascade_available := eye_cascade_available s; eyes := eyes s |}.

Definition with_sharpness (s : scene) (v : Q) : scene :=
  {| readable := readable s; mode := mode s; has_getexif := has_getexif s;
     exif_data := exif_data s; faces := faces s; sharpness := v;
     skin_pixels := skin_pixels s; pixels := pixels s;
     eye_cascade_available := eye_cascade_available s; eyes := eyes s |}.

Definition without_eye_cascade (s : scene) : scene :=
  {| readable := readable s; mode := mode s; has_getexif := has_getexif s;
     exif_data := exif_data s; faces := faces s; sharpness := sharpness s;
     skin_pixels := skin_pixels s; pixels := pixels s;
     eye_cascade_available := false; eyes := eyes s |}.

Definition unreadable (s : scene) : scene :=
  {| readable := false; mode := mode s; has_getexif := has_getexif s;
     exif_data := exif_data s; faces := faces s; sharpness := sharpness s;
     skin_pixels := skin_pixels s; pixels := pixels s;
     eye_cascade_available := eye_cascade_available s; eyes := eyes s |}.

(** An upload: the first bytes of a JPEG. *)
Definition upload : bytes := [Byte.xff; Byte.xd8; Byte.xff; Byte.xe0].

(** The engine the routes module creates: [FaceEngine()]. *)
Definition face_engine : FaceEngine.t :=
  FaceEngine.__init__ Config.default None None.

(** A 128-dimensional encoding that is [x] in its first coordinate and zero
    elsewhere. *)
Definition axis (x : Q) : encoding := x :: repeat 0%Q 127.

(** An active, consenting user enrolled with the encoding [axis x]. *)
Definition student (n : Z) (x : Q) : Routes.User :=
  {| Routes.id := n; Routes.face_encoding := Some (axis x);
     Routes.is_active := true; Routes.consent_given := true |}.

(** A deployment whose environment sets [FACE_TOLERANCE=1.2]. *)
Definition lenient : Config.t :=
  {| Config.FACE_TOLERANCE := 1.2;
     Config.FACE_ENCODING_MODEL := "small";
     Config.MAX_IMAGE_SIZE_MB := 5 |}.

End Stub.

(* ================================================================== *)
(** * Vocabulary of the statements *)
(* ================================================================== *)

Module Vocabulary.

(** The numbers the spec calls [passed_checks] and [total_checks_run], read
    off the per-check breakdown of a liveness result. *)
Definition passed_of (entry : bool) : Z := if entry then 1%Z else 0%Z.

Definition passed_checks (c : LivenessChecker.Checks) : Z :=
  (passed_of (fst (LivenessChecker.blur c))
   + passed_of (fst (LivenessChecker.color_distribution c))
   + match LivenessChecker.eyes_detected c with
     | Some e => passed_of (fst e)
     | None => 0
     end)%Z.

Definition total_checks_run (c : LivenessChecker.Checks) : Z :=
  match LivenessChecker.eyes_detected c with Some _ => 3%Z | None => 2%Z end.

(** The eye detector is unavailable for the grayscale crop [gray]: the
    cascade cannot be constructed, or it cannot be used. *)
Definition eye_detector_unavailable (L : Libs) (gray : ndarray L) : Prop :=
  let path :=
    String.append (cv2_data_haarcascades L) "haarcascade_eye.xml" in
  (exists e, cv2_CascadeClassifier L path = Raised e) \/
  (exists c e, cv2_CascadeClassifier L path = Returned c /\
               cv2_detectMultiScale L c gray 1.1 5 = Raised e).

(** The eye detector really ran on [gray] and found [eyes]. *)
Definition eye_detector_ran (L : Libs) (gray : ndarray L) (eyes : list box)
    : Prop :=
  let path :=
    String.append (cv2_data_haarcascades L) "haarcascade_eye.xml" in
  exists c, cv2_CascadeClassifier L path = Returned c /\
            cv2_detectMultiScale L c gray 1.1 5 = Returned eyes.

(** [note] reads off a liveness result whether the eye check was skipped:
    it says yes whenever the detector was unavailable and no whenever the
    detector ran. *)
Definition tells_skipped_eye_check
    (note : LivenessChecker.LivenessResult -> bool) : Prop :=
  forall (L : Libs) (image_bytes : bytes) (loc : box) img arr face gray r,
    Image_open L image_bytes = Returned img ->
    np_array L img = Returned arr ->
    np_crop L arr loc = Returned face ->
    cv2_cvtColor L face "COLOR_RGB2GRAY" = Returned gray ->
    run (LivenessChecker.verify L image_bytes (Some loc)) = Returned r ->
    (eye_detector_unavailable L gray -> note r = true) /\
    (forall eyes, eye_detector_ran L gray eyes -> note r = false).

(** Whether an enrolled user matches the submitted encoding at the engine's
    tolerance, and with which confidence. *)
Definition candidate_matches (L : Libs) (face_engine : FaceEngine.t)
    (unknown_encoding : encoding) (user : Routes.User) : bool :=
  FaceEngine.match_
    (FaceEngine.compare_faces L face_engine (Routes.known_encoding user)
       unknown_encoding None).

Definition candidate_confidence (L : Libs) (face_engine : FaceEngine.t)
    (unknown_encoding : encoding) (user : Routes.User) : Q :=
  FaceEngine.confidence
    (FaceEngine.compare_faces L face_engine (Routes.known_encoding user)
       unknown_encoding None).

(** [user] is the candidate of highest confidence among those of [enrolled]
    that match, the first such in enumeration order: every matching
    candidate before it has a smaller confidence, and none after it has a
    greater one. *)
Definition first_best_match (L : Libs) (face_engine : FaceEngine.t)
    (unknown_encoding : encoding) (enrolled : list Routes.User)
    (user : Routes.User) : Prop :=
  exists before after,
    enrolled = before ++ user :: after /\
    candidate_matches L face_engine unknown_encoding user = true /\
    (forall v, In v before ->
       candidate_matches L face_engine unknown_encoding v = true ->
       (candidate_confidence L face_engine unknown_encoding v
        < candidate_confidence L face_engine unknown_encoding user)%Q) /\
    (forall v, In v after ->
       candidate_matches L face_engine unknown_encoding v = true ->
       (candidate_confidence L face_engine unknown_encoding v
        <= candidate_confidence L face_engine unknown_encoding user)%Q).

End Vocabulary.

(* ================================================================== *)
(** * Further test doubles *)
(* ================================================================== *)

Module Samples.

(** [L] with another [img.save]. *)
Definition with_Image_save (L : Libs)
    (save : pil_image L -> string -> Z -> outcome bytes) : Libs := {|
  pil_image := pil_image L;
  ndarray := ndarray L;
  cascade := cascade L;
  norm_diff := norm_diff L;
  face_locations := face_locations L;
  load_image_file := load_image_file L;
  Image_open := Image_open L;
  Image_mode := Image_mode L;
  Image_convert := Image_convert L;
  Image_getexif := Image_getexif L;
  Image_rotate := Image_rotate L;
  Image_save := save;
  ExifTags_TAGS := ExifTags_TAGS L;
  np_array := np_array L;
  np_crop := np_crop L;
  np_count_positive := np_count_positive L;
  np_size := np_size L;
  cv2_cvtColor := cv2_cvtColor L;
  cv2_Laplacian_var := cv2_Laplacian_var L;
  cv2_inRange := cv2_inRange L;
  cv2_data_haarcascades := cv2_data_haarcascades L;
  cv2_CascadeClassifier := cv2_CascadeClassifier L;
  cv2_detectMultiScale := cv2_detectMultiScale L
|}.

(** [L] with another face detector. *)
Definition with_face_locations (L : Libs)
    (detect : ndarray L -> string -> outcome (list box)) : Libs := {|
  pil_image := pil_image L;
  ndarray := ndarray L;
  cascade := cascade L;
  norm_diff := norm_diff L;
  face_locations := detect;
  load_image_file := load_image_file L;
  Image_open := Image_open L;
  Image_mode := Image_mode L;
  Image_convert := Image_convert L;
  Image_getexif := Image_getexif L;
  Image_rotate := Image_rotate L;
  Image_save := Image_save L;
  ExifTags_TAGS := ExifTags_TAGS L;
  np_array := np_array L;
  np_crop := np_crop L;
  np_count_positive := np_count_positive L;
  np_size := np_size L;
  cv2_cvtColor := cv2_cvtColor L;
  cv2_Laplacian_var := cv2_Laplacian_var L;
  cv2_inRange := cv2_inRange L;
  cv2_data_haarcascades := cv2_data_haarcascades L;
  cv2_CascadeClassifier := cv2_CascadeClassifier L;
  cv2_detectMultiScale := cv2_detectMultiScale L
|}.

(** [L] with another slicing of arrays. *)
Definition with_np_crop (L : Libs)
    (crop : ndarray L -> box -> outcome (ndarray L)) : Libs := {|
  pil_image := pil_image L;
  ndarray := ndarray L;
  cascade := cascade L;
  norm_diff := norm_diff L;
  face_locations := face_locations L;
  load_image_file := load_image_file L;
  Image_open := Image_open L;
  Image_mode := Image_mode L;
  Image_convert := Image_convert L;
  Image_getexif := Image_getexif L;
  Image_rotate := Image_rotate L;
  Image_save := Image_save L;
  ExifTags_TAGS := ExifTags_TAGS L;
  np_array := np_array L;
  np_crop := crop;
  np_count_positive := np_count_positive L;
  np_size := np_size L;
  cv2_cvtColor := cv2_cvtColor L;
  cv2_Laplacian_var := cv2_Laplacian_var L;
  cv2_inRange := cv2_inRange L;
  cv2_data_haarcascades := cv2_data_haarcascades L;
  cv2_CascadeClassifier := cv2_CascadeClassifier L;
  cv2_detectMultiScale := cv2_detectMultiScale L
|}.

(** The portrait as a PNG with an alpha channel. *)
Definition rgba_portrait : Stub.scene := {|
  Stub.readable := true;
  Stub.mode := "RGBA";
  Stub.has_getexif := false;
  Stub.exif_data := None;
  Stub.faces := Stub.faces Stub.portrait;
  Stub.sharpness := Stub.sharpness Stub.portrait;
  Stub.skin_pixels := Stub.skin_pixels Stub.portrait;
  Stub.pixels := Stub.pixels Stub.portrait;
  Stub.eye_cascade_available := true;
  Stub.eyes := Stub.eyes Stub.portrait
|}.

(** The portrait with one eye covered. *)
Definition one_eyed_portrait : Stub.scene := {|
  Stub.readable := true;
  Stub.mode := "RGB";
  Stub.has_getexif := true;
  Stub.exif_data := None;
  Stub.faces := Stub.faces Stub.portrait;
  Stub.sharpness := Stub.sharpness Stub.portrait;
  Stub.skin_pixels := Stub.skin_pixels Stub.portrait;
  Stub.pixels := Stub.pixels Stub.portrait;
  Stub.eye_cascade_available := true;
  Stub.eyes := [(60, 90, 80, 70)%Z]
|}.

(** A library whose JPEG encoder fails, one whose face detector fails, and
    one whose slicing fails. *)
Definition failing_save : Libs :=
  with_Image_save (Stub.libs Stub.portrait)
    (fun _ _ _ => Raised (Exn "OSError" "encoder error -2 when writing image file")).

Definition failing_detector : Libs :=
  with_face_locations (Stub.libs Stub.portrait)
    (fun _ _ => Raised (Exn "RuntimeError" "Unsupported image type")).

Definition failing_crop : Libs :=
  with_np_crop (Stub.libs Stub.portrait)
    (fun _ _ => Raised (Exn "IndexError" "too many indices for array")).

End Samples.

(* ================================================================== *)
(** * app/face/engine.py: encode_face *)
(* ================================================================== *)

Module Encoder.

(** [face_recognition.face_encodings(image, known_face_locations=...,
    num_jitters=...)], the one library call of [encode_face].  Without
    known locations the library locates the faces itself. *)
Definition face_encodings_fn (L : Libs) : Type :=
  ndarray L -> option (list box) -> Z -> outcome (list encoding).

(** [encode_face(self, image, face_location=None)]; a face location is
    [None] or a 4-tuple, and a 4-tuple is truthy. *)
Definition encode_face (L : Libs) (face_encodings : face_encodings_fn L)
    (self : FaceEngine.t) (image : ndarray L) (face_location : option box)
    : M (option encoding) :=
  (encodings <- call FR_face_encodings
                     (face_encodings image
                        (match face_location with
                         | Some loc => Some [loc]
                         | None => None
                         end) 1%Z) ;;
   ret (match encodings with
        | e :: _ => Some e
        | [] => None
        end))%py.

End Encoder.

(* ================================================================== *)
(** * app/face/routes.py: enroll_face *)
(* ================================================================== *)

Module Web.

(** The values of the JSON bodies the handler builds. *)
Inductive json : Type :=
| JString (s : string)
| JBool (b : bool)
| JNumber (q : Q).

(** [jsonify(body), status]. *)
Record response : Type := {
  body : list (string * json);
  status : Z
}.

(** What the handler reads of the request: the uploaded files by field name
    (a file is what [file.read()] returns) and [request.remote_addr]. *)
Record request : Type := {
  files : list (string * bytes);
  remote_addr : string
}.

(** ['photo' in request.files] and [request.files['photo']]. *)
Fixpoint files_get (fs : list (string * bytes)) (name : string)
    : option bytes :=
  match fs with
  | [] => None
  | (k, v) :: rest => if String.eqb k name then Some v else files_get rest name
  end.

(** The keyword arguments the handler gives to [log_audit]; the arguments it
    does not give stay [None]. *)
Record AuditEntry : Type := {
  actor_id : Z;
  action : string;
  resource_type : string;
  resource_id : option Z;
  ip_address : string;
  status_code : Z;
  error_message : option string;
  face_match_confidence : option Q;
  liveness_score : option Q
}.

(** The collaborators of the handler beyond [Libs]: the face encoder,
    [img.save(..., optimize=True)], the commit of line 108, and [log_audit]
    (which adds the entry and commits). *)
Record Services (L : Libs) : Type := {
  face_encodings : Encoder.face_encodings_fn L;
  Image_save_optimized : pil_image L -> string -> Z -> outcome bytes;
  session_commit : outcome unit;
  log_audit : AuditEntry -> outcome unit
}.
Arguments face_encodings {L} _.
Arguments Image_save_optimized {L} _.
Arguments session_commit {L} _.
Arguments log_audit {L} _.

(** What the database holds of interest: the committed [face_encoding] of
    the current user and the audit entries written. *)
Record db : Type := {
  stored_encoding : option encoding;
  audit_log : list AuditEntry
}.

(** Computations of the handler: those of [M], over the database as well. *)
Definition H (A : Type) : Type := trace * db -> outcome A * (trace * db).

Definition hret {A} (a : A) : H A := fun w => (Returned a, w).

Definition hbind {A B} (m : H A) (k : A -> H B) : H B :=
  fun w =>
    match m w with
    | (Returned a, w') => k a w'
    | (Raised e, w') => (Raised e, w')
    end.

Definition hraise {A} (e : exn) : H A := fun w => (Raised e, w).

Definition htry {A} (body : H A) (handler : exn -> H A) : H A :=
  fun w =>
    match body w with
    | (Returned a, w') => (Returned a, w')
    | (Raised e, w') => handler e w'
    end.

(** A computation of the image pipeline, run inside the handler. *)
Definition lift {A} (m : M A) : H A :=
  fun w =>
    let '(o, t) := m (fst w) in (o, (t, snd w)).

(** [current_user.face_encoding = encoding.tolist()], the timestamp, and
    [db.session.commit()]: the encoding is stored when the commit succeeds. *)
Definition commit_encoding {L} (W : Services L) (enc : encoding) : H unit :=
  fun w =>
    match session_commit W with
    | Returned _ =>
        (Returned tt,
         (fst w, {| stored_encoding := Some enc;
                    audit_log := audit_log (snd w) |}))
    | Raised e => (Raised e, w)
    end.

(** [log_audit(...)]: the entry is written when its commit succeeds. *)
Definition audit {L} (W : Services L) (entry : AuditEntry) : H unit :=
  fun w =>
    match log_audit W entry with
    | Returned _ =>
        (Returned tt,
         (fst w, {| stored_encoding := stored_encoding (snd w);
                    audit_log := audit_log (snd w) ++ [entry] |}))
    | Raised e => (Raised e, w)
    end.

(** [d[key]] on the result of [verify] for the key ['details']. *)
Definition details_item (r : LivenessChecker.LivenessResult) : H string :=
  match LivenessChecker.details r with
  | Some d => hret d
  | None => hraise (Exn "KeyError" "'details'")
  end.

Definition respond (b : list (string * json)) (code : Z) : response :=
  {| body := b; status := code |}.

(** Lines 44-63 of [enroll_face]: the upload is opened, converted to RGB when
    its mode is not RGB, and saved as an optimized JPEG of quality 85; a
    failure answers 400 at once. *)
Definition validate_and_convert {L} (W : Services L) (image_bytes : bytes)
    : M (response + bytes) :=
  try_except
    (img <- call PIL_Image_open (Image_open L image_bytes) ;;
     img <- (if existsb (String.eqb (Image_mode L img)) ["RGBA"; "P"; "LA"]
             then call (PIL_convert "RGB") (Image_convert L img "RGB")
             else if negb (String.eqb (Image_mode L img) "RGB")
             then call (PIL_convert "RGB") (Image_convert L img "RGB")
             else ret img) ;;
     output <- call (PIL_save "JPEG" 85)
                    (Image_save_optimized W img "JPEG" 85) ;;
     ret (inr output))%py
    (fun e =>
       ret (inl (respond
                   [("error",
                     JString (String.append "Invalid image file: " (str e)))]
                   400))).

End Web.

Declare Scope web_scope.
Delimit Scope web_scope with web.
Notation "x <- c ;; k" := (Web.hbind c (fun x => k))
  (at level 100, c at next level, right associativity) : web_scope.
Notation "c ;;; k" := (Web.hbind c (fun _ => k))
  (at level 100, right associativity) : web_scope.

Module Enroll.

Import Web.

(** [enroll_face()], for the logged-in [current_user].  [face_engine] is the
    engine the module created at import; [app_config] is
    [current_app.config].  The logging and the rollback of the last handler
    are taken to succeed; the rollback leaves what was committed.
    [preprocess_image] returns an image or a truthy error, never neither, so
    the two [TypeError] branches, which stand for the detector run on [None],
    are never taken. *)
Definition enroll_face (L : Libs) (W : Services L)
    (face_engine : FaceEngine.t) (app_config : Config.t)
    (current_user : Routes.User) (req : request) : H response :=
  if negb (Routes.consent_given current_user) then
    hret (respond
            [("error", JString "Biometric consent required");
             ("action",
              JString "Please provide consent at /api/auth/consent")] 403)
  else
    match files_get (files req) "photo" with
    | None => hret (respond [("error", JString "No photo uploaded")] 400)
    | Some file =>
        htry
          (let image_bytes := file in
           match image_bytes with
           | [] => hret (respond [("error", JString "Empty image file")] 400)
           | _ :: _ =>
           converted <- lift (validate_and_convert W image_bytes) ;;
           match converted with
           | inl early => hret early
           | inr image_bytes =>
           let max_size :=
             (Config.MAX_IMAGE_SIZE_MB app_config * 1024 * 1024)%Z in
           if (max_size <? Z.of_nat (length image_bytes))%Z then
             hret (respond
                     [("error",
                       JString
                         (String.append "Image too large. Max "
                            (String.append
                               (str_int (max_size / (1024 * 1024)))
                               "MB allowed")))] 400)
           else
           pre <- lift (FaceEngine.preprocess_image L face_engine
                          image_bytes 5) ;;
           let '(image, error) := pre in
           match error with
           | Some text =>
               if truthy_str text
               then hret (respond [("error", JString text)] 400)
               else hraise (Exn "TypeError" "image is None")
           | None =>
           match image with
           | None => hraise (Exn "TypeError" "image is None")
           | Some image =>
           quality <- lift (FaceEngine.validate_image_quality L face_engine
                              image 80) ;;
           match quality with
           | FaceEngine.Invalid text =>
               hret (respond [("error", JString text)] 422)
           | FaceEngine.Valid face_location _ _ =>
           encoding <- lift (Encoder.encode_face L (face_encodings W)
                               face_engine image (Some face_location)) ;;
           match encoding with
           | None =>
               hret (respond [("error", JString "Could not encode face")] 422)
           | Some encoding =>
           liveness_result <- lift (LivenessChecker.verify L image_bytes
                                      (Some face_location)) ;;
           if negb (LivenessChecker.liveness_verified liveness_result) then
             details <- details_item liveness_result ;;
             audit W
               {| actor_id := Routes.id current_user;
                  action := "face_enroll_failed";
                  resource_type := "face";
                  resource_id := None;
                  ip_address := remote_addr req;
                  status_code := 422;
                  error_message :=
                    Some (String.append "Liveness check failed: " details);
                  face_match_confidence := None;
                  liveness_score :=
                    Some (LivenessChecker.confidence liveness_result) |} ;;;
             hret (respond
                     [("error", JString "Liveness verification failed");
                      ("details", JString details);
                      ("security_alert", JBool true)] 422)
           else
             commit_encoding W encoding ;;;
             audit W
               {| actor_id := Routes.id current_user;
                  action := "face_enrolled";
                  resource_type := "face";
                  resource_id := Some (Routes.id current_user);
                  ip_address := remote_addr req;
                  status_code := 201;
                  error_message := None;
                  face_match_confidence := Some 1%Q;
                  liveness_score := None |} ;;;
             hret (respond
                     [("message", JString "Face enrolled successfully");
                      ("encoding_id",
                       JString (String.append "enc_"
                                  (str_int (Routes.id current_user))));
                      ("quality_score", JNumber 0.95);
                      ("liveness_verified", JBool true)] 201)
           end end end end end end)%web
          (fun e =>
             hret (respond
                     [("error",
                       JString (String.append "Enrollment failed: " (str e)))]
                     500))
    end.

(** A request served on an empty trace and a database in which the current
    user has no committed encoding yet. *)
Definition fresh : trace * db :=
  ([], {| stored_encoding := None; audit_log := [] |}).

Definition serve {A} (h : H A) : outcome A * (trace * db) := h fresh.

(** The answer of a served request and the database it leaves. *)
Definition answer {A} (x : outcome A * (trace * db)) : outcome A := fst x.
Definition final_db {A} (x : outcome A * (trace * db)) : db := snd (snd x).

(** The outcome of a pipeline computation does not depend on the calls made
    before it. *)
Definition trace_blind {A} (m : M A) : Prop := forall t, fst (m t) = run m.

(** Collaborators for a scene: an encoder that finds [encodings], a JPEG
    writer, and a database whose commits succeed or fail as told. *)
Definition services (s : Stub.scene) (encodings : list encoding)
    (commit_ok audit_ok : bool) : Services (Stub.libs s) := {|
  face_encodings := fun _ _ _ => Returned encodings;
  Image_save_optimized := fun _ _ _ =>
    Returned [Byte.xff; Byte.xd8; Byte.xff; Byte.xdb];
  session_commit :=
    if commit_ok then Returned tt
    else Raised (Exn "OperationalError" "MySQL server has gone away");
  log_audit := fun _ =>
    if audit_ok then Returned tt
    else Raised (Exn "OperationalError" "MySQL server has gone away")
|}.

(** Collaborators over the library whose slicing fails. *)
Definition services_failing_crop (encodings : list encoding)
    : Services Samples.failing_crop := {|
  face_encodings := fun _ _ _ => Returned encodings;
  Image_save_optimized := fun _ _ _ =>
    Returned [Byte.xff; Byte.xd8; Byte.xff; Byte.xdb];
  session_commit := Returned tt;
  log_audit := fun _ => Returned tt
|}.

(** A consenting student without an encoding yet, and the request carrying
    a photo. *)
Definition newcomer : Routes.User :=
  {| Routes.id := 7; Routes.face_encoding := None;
     Routes.is_active := true; Routes.consent_given := true |}.

Definition photo_request : request :=
  {| files := [("photo", Stub.upload)]; remote_addr := "41.90.64.10" |}.

End Enroll.

(* ================================================================== *)
(** * app/face/routes.py: recognize_face, up to the match *)
(* ================================================================== *)

Module Recognize.

(** What the handler reads of the request: the uploaded files and the form
    fields. *)
Record request : Type := {
  files : list (string * bytes);
  form : list (string * string)
}.

(** [request.form.get(name)]. *)
Fixpoint form_get (fields : list (string * string)) (name : string)
    : option string :=
  match fields with
  | [] => None
  | (k, v) :: rest => if String.eqb k name then Some v else form_get rest name
  end.

(** [a or b] on two results of [form.get]. *)
Definition or_field (a b : option string) : option string :=
  match a with
  | Some s => if truthy_str s then Some s else b
  | None => b
  end.

(** [not x] on such a result. *)
Definition falsy_field (a : option string) : bool :=
  match a with
  | Some s => negb (truthy_str s)
  | None => true
  end.

(** Lines 159-168: the upload is opened, converted to RGB when its mode is
    not RGB, and saved as a JPEG of quality 85; a failure answers 400. *)
Definition validate_and_convert (L : Libs) (image_bytes : bytes)
    : M (Web.response + bytes) :=
  try_except
    (img <- call PIL_Image_open (Image_open L image_bytes) ;;
     img <- (if negb (String.eqb (Image_mode L img) "RGB")
             then call (PIL_convert "RGB") (Image_convert L img "RGB")
             else ret img) ;;
     output <- call (PIL_save "JPEG" 85) (Image_save L img "JPEG" 85) ;;
     ret (inr output))%py
    (fun e =>
       ret (inl (Web.respond
                   [("error",
                     Web.JString (String.append "Invalid image: " (str e)))]
                   400))).

(** Lines 138-199 of [recognize_face]: an answer given before any match is
    sought, or the match on which the rest of the handler acts ([Some]: the
    attendance of that user is recorded with that confidence; [None]: "Face
    not recognized").  [users] is the user table when the query is made.
    The logging and the rollback of the last handler are taken to succeed.
    As in [enroll_face], the [TypeError] branches stand for the encoder run
    on [None] and are never taken. *)
Definition recognize_face_match (L : Libs)
    (face_encodings : Encoder.face_encodings_fn L)
    (face_engine : FaceEngine.t) (app_config : Config.t)
    (users : list Routes.User) (req : request)
    : M (Web.response + option (Routes.User * Q)) :=
  match Web.files_get (files req) "photo" with
  | None =>
      ret (inl (Web.respond [("error", Web.JString "No photo provided")] 400))
  | Some file =>
      let unit_code :=
        or_field (form_get (form req) "unit_code")
                 (form_get (form req) "course_code") in
      if falsy_field unit_code then
        ret (inl (Web.respond
                    [("error",
                      Web.JString "Unit code or course code required")] 400))
      else
        try_except
          (let image_bytes := file in
           match image_bytes with
           | [] =>
               ret (inl (Web.respond
                           [("error", Web.JString "Empty image file")] 400))
           | _ :: _ =>
           converted <- validate_and_convert L image_bytes ;;
           match converted with
           | inl early => ret (inl early)
           | inr image_bytes =>
           pre <- FaceEngine.preprocess_image L face_engine image_bytes 5 ;;
           let '(image, error) := pre in
           match error with
           | Some text =>
               if truthy_str text
               then ret (inl (Web.respond
                                [("status", Web.JString "failed");
                                 ("message", Web.JString text)] 400))
               else raise (Exn "TypeError" "image is None")
           | None =>
           match image with
           | None => raise (Exn "TypeError" "image is None")
           | Some image =>
           unknown_encoding <- Encoder.encode_face L face_encodings
                                 face_engine image None ;;
           match unknown_encoding with
           | None =>
               ret (inl (Web.respond
                           [("status", Web.JString "failed");
                            ("message", Web.JString "No face detected")] 400))
           | Some unknown_encoding =>
               ret (inr (Routes.recognize_match L face_engine app_config
                           users unknown_encoding))
           end end end end end)%py
          (fun e =>
             ret (inl (Web.respond
                         [("error", Web.JString "Recognition failed")] 500)))
  end.

(** A request with a photo and a unit code. *)
Definition photo_request : request :=
  {| files := [("photo", Stub.upload)]; form := [("unit_code", "CSC 311")] |}.

(** An encoder that finds two faces in whatever it is shown. *)
Definition two_faces : Encoder.face_encodings_fn (Stub.libs Stub.portrait) :=
  fun _ _ _ => Returned [Stub.axis 0.2; Stub.axis 0.9].

End Recognize.

(** Case analysis on the outcome of every library call in the goal. *)
Ltac lib_cases :=
  repeat match goal with
         | |- context [match ?o with Returned _ => _ | Raised _ => _ end] =>
             destruct o eqn:?
         end.

Ltac py_unfold :=
  unfold run, calls, try_except, bind, call, ret, raise.

(* ================================================================== *)
(** * Facts about the runtime fragment *)
(* ================================================================== *)

Lemma Qlt_bool_iff (a b : Q) : Qlt_bool a b = true <-> (a < b)%Q.
Proof.
  unfold Qlt_bool. rewrite negb_true_iff.
  split; intro H.
  - apply Qnot_le_lt. intro Hle. apply Qle_bool_iff in Hle. congruence.
  - destruct (Qle_bool b a) eqn:E; [|reflexivity].
    apply Qle_bool_iff in E. exfalso. apply (Qlt_not_le _ _ H E).
Qed.

Lemma truthy_num_false_iff (q : Q) : truthy_num q = false <-> (q == 0)%Q.
Proof.
  unfold truthy_num. rewrite negb_false_iff. apply Qeq_bool_iff.
Qed.

Lemma or_num_None (b : Q) : or_num None b = b.
Proof. reflexivity. Qed.

Lemma or_num_zero (q b : Q) : (q == 0)%Q -> or_num (Some q) b = b.
Proof.
  intro H. unfold or_num. apply truthy_num_false_iff in H. now rewrite H.
Qed.

Lemma or_num_nonzero (q b : Q) : ~ (q == 0)%Q -> or_num (Some q) b = q.
Proof.
  intro H. unfold or_num.
  destruct (truthy_num q) eqn:E; [reflexivity|].
  apply truthy_num_false_iff in E. contradiction.
Qed.

(* ================================================================== *)
(** * FaceEngine.compare_faces *)
(* ================================================================== *)

Section Compare.

Context (L : Libs).

Local Open Scope Q_scope.

(** The fields of a comparison, unfolded. *)
Lemma compare_faces_fields (self : FaceEngine.t) (k u : encoding)
    (tolerance : option Q) :
  let r := FaceEngine.compare_faces L self k u tolerance in
  FaceEngine.distance r = norm_diff L k u /\
  FaceEngine.confidence r = 1 - norm_diff L k u /\
  FaceEngine.match_ r =
    Qle_bool (norm_diff L k u) (or_num tolerance (FaceEngine.tolerance self)).
Proof. cbn. repeat split. Qed.

(** C2, as the code has it: [compare_faces] reports the library's distance
    between the two encodings, a confidence of one minus that distance, and
    a match exactly when the distance is at most the tolerance in force,
    which is the supplied tolerance when one is supplied and is not zero, and
    the engine's own tolerance otherwise. *)
Theorem compare_faces_effective_tolerance (self : FaceEngine.t)
    (k u : encoding) (tolerance : option Q) :
  let r := FaceEngine.compare_faces L self k u tolerance in
  FaceEngine.distance r = norm_diff L k u /\
  FaceEngine.confidence r = 1 - FaceEngine.distance r /\
  (FaceEngine.match_ r = true <->
   FaceEngine.distance r <=
     match tolerance with
     | Some t => if Qeq_bool t 0 then FaceEngine.tolerance self else t
     | None => FaceEngine.tolerance self
     end).
Proof.
  destruct (compare_faces_fields self k u tolerance) as (Hd & Hc & Hm).
  cbv zeta. rewrite Hm, Hd, Hc. repeat split.
  - intro H. apply Qle_bool_iff in H.
    destruct tolerance as [t|]; [|exact H].
    unfold or_num, truthy_num in H. now destruct (Qeq_bool t 0).
  - intro H. apply Qle_bool_iff.
    destruct tolerance as [t|]; [|exact H].
    unfold or_num, truthy_num. now destruct (Qeq_bool t 0).
Qed.

(** C3, as the code has it: for a distance that is not negative the
    confidence is at most one, and it is at least zero exactly when the
    distance is at most one; so a match under a tolerance in force of at
    most one has its confidence in [0, 1]. *)
Theorem compare_faces_confidence_range (self : FaceEngine.t)
    (k u : encoding) (tolerance : option Q) :
  0 <= norm_diff L k u ->
  let r := FaceEngine.compare_faces L self k u tolerance in
  FaceEngine.confidence r <= 1 /\
  (0 <= FaceEngine.confidence r <-> FaceEngine.distance r <= 1) /\
  (FaceEngine.match_ r = true ->
   or_num tolerance (FaceEngine.tolerance self) <= 1 ->
   0 <= FaceEngine.confidence r <= 1).
Proof.
  intro Hd.
  destruct (compare_faces_fields self k u tolerance) as (Ed & Ec & Em).
  cbv zeta. rewrite Em, Ed, Ec.
  split; [lra|]. split; [split; lra|].
  intros H Htol. apply Qle_bool_iff in H. lra.
Qed.

(** C10: a tolerance of zero, given both to the constructor and to
    [compare_faces], is replaced by the configured tolerance, so the
    comparison matches whenever the distance is at most that value, which is
    0.6 in the default configuration. *)
Theorem zero_tolerance_falls_back_to_config (cfg : Config.t)
    (model : option string) (k u : encoding) (z : Q) :
  z == 0 ->
  let e := FaceEngine.__init__ cfg (Some z) model in
  FaceEngine.tolerance e = Config.FACE_TOLERANCE cfg /\
  (FaceEngine.match_ (FaceEngine.compare_faces L e k u (Some z)) = true <->
   norm_diff L k u <= Config.FACE_TOLERANCE cfg) /\
  Config.FACE_TOLERANCE Config.default = 0.6.
Proof.
  intro Hz. cbv zeta.
  assert (Ht : FaceEngine.tolerance (FaceEngine.__init__ cfg (Some z) model)
               = Config.FACE_TOLERANCE cfg)
    by (cbn; now apply or_num_zero).
  repeat split; [exact Ht| |].
  - intro H.
    rewrite (proj2 (proj2 (compare_faces_fields _ k u (Some z)))) in H.
    rewrite (or_num_zero z _ Hz), Ht in H. now apply Qle_bool_iff.
  - intro H.
    rewrite (proj2 (proj2 (compare_faces_fields _ k u (Some z)))).
    rewrite (or_num_zero z _ Hz), Ht. now apply Qle_bool_iff.
Qed.

End Compare.

(** C2 fails for a supplied tolerance of zero: the default engine declares
    two encodings at distance 0.3 a match. *)
Lemma compare_faces_zero_tolerance_still_matches :
  let r := FaceEngine.compare_faces (Stub.libs Stub.portrait) Stub.face_engine
             (Stub.axis 0) (Stub.axis 0.3) (Some 0%Q) in
  FaceEngine.match_ r = true /\ ~ (FaceEngine.distance r <= 0)%Q.
Proof.
  split; [vm_compute; reflexivity|].
  intro H. apply Qle_bool_iff in H. vm_compute in H. discriminate.
Qed.

(** C3 fails for encodings further apart than one: at distance 1.5 the
    confidence is -0.5. *)
Lemma compare_faces_confidence_negative :
  let r := FaceEngine.compare_faces (Stub.libs Stub.portrait) Stub.face_engine
             (Stub.axis 0) (Stub.axis 1.5) None in
  (FaceEngine.confidence r == -0.5)%Q /\
  ~ (0 <= FaceEngine.confidence r <= 1)%Q.
Proof.
  split; [vm_compute; reflexivity|].
  intros [H _]. apply Qle_bool_iff in H. vm_compute in H. discriminate.
Qed.

Lemma compare_faces_confidence_range_witness :
  (0 <= norm_diff (Stub.libs Stub.portrait) (Stub.axis 0) (Stub.axis 0.3))%Q /\
  (0 <= FaceEngine.confidence
          (FaceEngine.compare_faces (Stub.libs Stub.portrait) Stub.face_engine
             (Stub.axis 0) (Stub.axis 0.3) None) <= 1)%Q.
Proof.
  assert (H : (0 <= norm_diff (Stub.libs Stub.portrait)
                      (Stub.axis 0) (Stub.axis 0.3))%Q)
    by (apply Qle_bool_iff; vm_compute; reflexivity).
  split; [exact H|].
  apply (compare_faces_confidence_range (Stub.libs Stub.portrait)
           Stub.face_engine (Stub.axis 0) (Stub.axis 0.3) None H).
  - vm_compute; reflexivity.
  - apply Qle_bool_iff; vm_compute; reflexivity.
Defined.

Lemma zero_tolerance_falls_back_to_config_witness :
  (0 == 0)%Q /\
  FaceEngine.match_
    (FaceEngine.compare_faces (Stub.libs Stub.portrait)
       (FaceEngine.__init__ Config.default (Some 0%Q) None)
       (Stub.axis 0) (Stub.axis 0.3) (Some 0%Q)) = true.
Proof.
  split; [reflexivity|].
  apply (proj1 (proj2
           (zero_tolerance_falls_back_to_config (Stub.libs Stub.portrait)
              Config.default None (Stub.axis 0) (Stub.axis 0.3) 0%Q
              (Qeq_refl 0)))).
  apply Qle_bool_iff; vm_compute; reflexivity.
Defined.

(* ================================================================== *)
(** * FaceEngine.validate_image_quality *)
(* ================================================================== *)

Section Validate.

Context (L : Libs).

Local Open Scope Z_scope.

(** C9: when detection returns the boxes [found], [validate_image_quality]
    reports "No face detected" for none, "Multiple faces detected" for more
    than one, "Face too small" for a single box narrower or lower than
    [min_face_size], and otherwise succeeds with that box and its width and
    height, both at least [min_face_size]; the three errors differ. *)
Theorem validate_image_quality_cases (self : FaceEngine.t)
    (image : ndarray L) (min_face_size : Z) (found : list box) :
  face_locations L image (FaceEngine.model self) = Returned found ->
  let r := run (FaceEngine.validate_image_quality L self image min_face_size) in
  (found = [] -> r = Returned (FaceEngine.Invalid "No face detected")) /\
  (1 < Z.of_nat (length found) ->
   r = Returned (FaceEngine.Invalid "Multiple faces detected")) /\
  (forall top right_ bottom left_,
     found = [(top, right_, bottom, left_)] ->
     right_ - left_ < min_face_size \/ bottom - top < min_face_size ->
     r = Returned (FaceEngine.Invalid "Face too small")) /\
  (forall top right_ bottom left_,
     found = [(top, right_, bottom, left_)] ->
     min_face_size <= right_ - left_ -> min_face_size <= bottom - top ->
     r = Returned (FaceEngine.Valid (top, right_, bottom, left_)
                     (right_ - left_) (bottom - top))) /\
  (forall loc width height,
     r = Returned (FaceEngine.Valid loc width height) ->
     found = [loc] /\ min_face_size <= width /\ min_face_size <= height) /\
  "No face detected" <> "Multiple faces detected" /\
  "No face detected" <> "Face too small" /\
  "Multiple faces detected" <> "Face too small".
Proof.
  intros Hfound r.
  assert (Hr : r = Returned
            match found with
            | [] => FaceEngine.Invalid "No face detected"
            | (top, right_, bottom, left_) :: _ =>
                if 1 <? Z.of_nat (length found) then
                  FaceEngine.Invalid "Multiple faces detected"
                else if (right_ - left_ <? min_face_size)
                        || (bottom - top <? min_face_size) then
                  FaceEngine.Invalid "Face too small"
                else FaceEngine.Valid (top, right_, bottom, left_)
                       (right_ - left_) (bottom - top)
            end).
  { subst r. unfold FaceEngine.validate_image_quality, FaceEngine.detect_faces.
    py_unfold. cbn. rewrite Hfound.
    destruct found as [|[[[top right_] bottom] left_] rest]; [reflexivity|].
    destruct (1 <? Z.of_nat (length (_ :: rest))); [reflexivity|].
    destruct ((right_ - left_ <? min_face_size)
              || (bottom - top <? min_face_size)); reflexivity. }
  clearbody r. subst r.
  repeat match goal with |- _ /\ _ => split end; try discriminate.
  - intros ->. reflexivity.
  - intro Hlen. destruct found as [|[[[top right_] bottom] left_] rest].
    + cbn in Hlen. lia.
    + apply Z.ltb_lt in Hlen. now rewrite Hlen.
  - intros top right_ bottom left_ -> Hsmall. cbn.
    destruct Hsmall as [H|H]; apply Z.ltb_lt in H; rewrite H;
      [|rewrite orb_true_r]; reflexivity.
  - intros top right_ bottom left_ -> Hw Hh. cbn.
    apply Z.ltb_ge in Hw, Hh. now rewrite Hw, Hh.
  - intros loc width height H.
    destruct found as [|[[[top right_] bottom] left_] rest]; [discriminate|].
    destruct (1 <? Z.of_nat (length (_ :: rest))) eqn:Hlen; [discriminate|].
    destruct ((right_ - left_ <? min_face_size)
              || (bottom - top <? min_face_size)) eqn:Hs; [discriminate|].
    injection H as <- <- <-.
    apply orb_false_iff in Hs. destruct Hs as [Hw Hh].
    apply Z.ltb_ge in Hw, Hh, Hlen.
    destruct rest; [auto|]. cbn [length] in Hlen. lia.
Qed.

End Validate.

Lemma validate_image_quality_cases_witness :
  face_locations (Stub.libs Stub.portrait) 0%Z
    (FaceEngine.model Stub.face_engine) = Returned [(40, 190, 190, 40)%Z] /\
  run (FaceEngine.validate_image_quality (Stub.libs Stub.portrait)
         Stub.face_engine 0%Z 80)
  = Returned (FaceEngine.Valid (40, 190, 190, 40)%Z 150 150).
Proof.
  split; [reflexivity|].
  destruct (validate_image_quality_cases (Stub.libs Stub.portrait)
              Stub.face_engine 0%Z 80 [(40, 190, 190, 40)%Z] eq_refl)
    as (_ & _ & _ & Hvalid & _).
  apply (Hvalid 40 190 190 40)%Z; [reflexivity | lia | lia].
Defined.

(* ================================================================== *)
(** * FaceEngine.preprocess_image *)
(* ================================================================== *)

Section Preprocess.

Context (L : Libs).

Local Open Scope Z_scope.

(** The names the function reads resolve as the module's imports say: three
    of them are bound, [ExifTags] is not. *)
Lemma load_name_bound :
  FaceEngine.load_name FaceEngine.preprocess_image_locals "Image" = ret tt /\
  FaceEngine.load_name FaceEngine.preprocess_image_locals "BytesIO" = ret tt /\
  FaceEngine.load_name FaceEngine.preprocess_image_locals "face_recognition"
  = ret tt.
Proof. repeat split. Qed.

Lemma load_name_ExifTags :
  FaceEngine.load_name FaceEngine.preprocess_image_locals "ExifTags"
  = raise (Exn "NameError" "name 'ExifTags' is not defined").
Proof. reflexivity. Qed.

(** The inner [try:] always ends in [NameError], before any EXIF is read. *)
Lemma auto_orient_raises (img : pil_image L) :
  FaceEngine.auto_orient L img
  = raise (Exn "NameError" "name 'ExifTags' is not defined").
Proof. reflexivity. Qed.

(** Hence [preprocess_image] is the size check followed by open, convert,
    save and reload. *)
Lemma preprocess_image_unfold (self : FaceEngine.t) (image_bytes : bytes)
    (max_size_mb : Z) :
  FaceEngine.preprocess_image L self image_bytes max_size_mb =
  if max_size_mb * 1024 * 1024 <? Z.of_nat (length image_bytes) then
    ret (None, Some "Image too large")
  else
    try_except
      (img <- call PIL_Image_open (Image_open L image_bytes) ;;
       img <- (if negb (String.eqb (Image_mode L img) "RGB")
               then call (PIL_convert "RGB") (Image_convert L img "RGB")
               else ret img) ;;
       output <- call (PIL_save "JPEG" 85) (Image_save L img "JPEG" 85) ;;
       image <- call FR_load_image_file (load_image_file L output) ;;
       ret (Some image, None))%py
      (fun e =>
         ret (None, Some (String.append "Image processing error: " (str e)))).
Proof. reflexivity. Qed.

(** No run of [preprocess_image] asks PIL for a rotation or for the EXIF
    data. *)
Lemma preprocess_image_never_rotates (self : FaceEngine.t)
    (image_bytes : bytes) (max_size_mb : Z) (c : libcall) :
  In c (calls (FaceEngine.preprocess_image L self image_bytes max_size_mb)) ->
  c <> PIL_getexif /\ forall angle, c <> PIL_rotate angle.
Proof.
  rewrite preprocess_image_unfold.
  destruct (max_size_mb * 1024 * 1024 <? Z.of_nat (length image_bytes)).
  - intros [].
  - py_unfold. cbn.
    destruct (Image_open L image_bytes) as [img|e] eqn:Hopen; cbn.
    + destruct (negb (String.eqb (Image_mode L img) "RGB")); cbn;
        lib_cases; cbn; intuition (subst; discriminate).
    + intuition (subst; discriminate).
Qed.

(** C8: a buffer longer than the cap is refused as "Image too large" without
    a single library call; a buffer within the cap that PIL cannot open is
    refused as "Image processing error: ..." with the library's message, and
    every run within the cap ends either with an image or with that kind of
    error; the two error texts are never equal. *)
Theorem preprocess_image_rejections (self : FaceEngine.t)
    (image_bytes : bytes) (max_size_mb : Z) :
  let m := FaceEngine.preprocess_image L self image_bytes max_size_mb in
  (max_size_mb * 1024 * 1024 < Z.of_nat (length image_bytes) ->
   run m = Returned (None, Some "Image too large") /\ calls m = []) /\
  (Z.of_nat (length image_bytes) <= max_size_mb * 1024 * 1024 ->
   (forall e, Image_open L image_bytes = Raised e ->
      run m = Returned
                (None, Some (String.append "Image processing error: " (str e))))
   /\
   ((exists image, run m = Returned (Some image, None)) \/
    (exists e, run m = Returned
                 (None,
                  Some (String.append "Image processing error: " (str e)))))) /\
  (forall text,
     "Image too large" <> String.append "Image processing error: " text).
Proof.
  cbv zeta. rewrite preprocess_image_unfold. split; [|split].
  - intro Hbig. apply Z.ltb_lt in Hbig. rewrite Hbig. split; reflexivity.
  - intro Hfit. apply Z.ltb_ge in Hfit. rewrite Hfit. split.
    + intros e He. py_unfold. cbn. rewrite He. reflexivity.
    + py_unfold. cbn.
      destruct (Image_open L image_bytes) as [img|e] eqn:Hopen; cbn;
        [|right; eexists; reflexivity].
      destruct (negb (String.eqb (Image_mode L img) "RGB")); cbn;
        lib_cases; cbn;
        solve [left; eexists; reflexivity | right; eexists; reflexivity].
  - intros text H. discriminate H.
Qed.

End Preprocess.

(** The spec's scenario: a 6 MB buffer under a 5 MB cap is refused before any
    decoding, and a 4-byte buffer PIL cannot identify is refused as a
    processing error. *)
Lemma preprocess_image_rejections_witness :
  (5 * 1024 * 1024 < Z.of_nat (length (repeat Byte.x00 (Z.to_nat 6291456))))%Z
  /\
  (run (FaceEngine.preprocess_image (Stub.libs Stub.portrait) Stub.face_engine
          (repeat Byte.x00 (Z.to_nat 6291456)) 5)
   = Returned (None, Some "Image too large") /\
   calls (FaceEngine.preprocess_image (Stub.libs Stub.portrait)
            Stub.face_engine (repeat Byte.x00 (Z.to_nat 6291456)) 5) = []) /\
  run (FaceEngine.preprocess_image (Stub.libs (Stub.unreadable Stub.portrait))
         Stub.face_engine Stub.upload 5)
  = Returned (None,
              Some "Image processing error: cannot identify image file").
Proof.
  assert (Hbig : (5 * 1024 * 1024
                  < Z.of_nat (length (repeat Byte.x00 (Z.to_nat 6291456))))%Z)
    by (rewrite repeat_length, Z2Nat.id; lia).
  split; [exact Hbig|]. split.
  - exact (proj1 (preprocess_image_rejections (Stub.libs Stub.portrait)
                    Stub.face_engine (repeat Byte.x00 (Z.to_nat 6291456)) 5)
             Hbig).
  - refine (proj1 (proj1 (proj2
              (preprocess_image_rejections
                 (Stub.libs (Stub.unreadable Stub.portrait))
                 Stub.face_engine Stub.upload 5)) _) _ eq_refl).
    cbn. lia.
Defined.

(** C7 at a photograph whose EXIF orientation is 3 (upside down): the inner
    block as written would turn it by 180 degrees, yet [preprocess_image]
    returns the picture unturned, after open, save and reload only. *)
Theorem preprocess_image_ignores_orientation :
  let L := Stub.libs (Stub.with_exif Stub.portrait (Some [(274, 3)%Z])) in
  run (FaceEngine.orient_from_exif L 0%Z) = Returned 180%Z /\
  run (FaceEngine.preprocess_image L Stub.face_engine Stub.upload 5)
  = Returned (Some 0%Z, None) /\
  calls (FaceEngine.preprocess_image L Stub.face_engine Stub.upload 5)
  = [PIL_Image_open; PIL_save "JPEG" 85; FR_load_image_file].
Proof. repeat split. Qed.

(* ================================================================== *)
(** * LivenessChecker *)
(* ================================================================== *)

Section Liveness.

Context (L : Libs).

Local Open Scope Q_scope.

(** The result [verify] builds when the evaluation raises [e]. *)
Lemma verify_handler (image_bytes : bytes) (face_location : option box)
    (e : exn) :
  run (LivenessChecker.verify_body L image_bytes face_location) = Raised e ->
  run (LivenessChecker.verify L image_bytes face_location)
  = Returned {| LivenessChecker.liveness_verified := false;
                LivenessChecker.confidence := 0;
                LivenessChecker.checks := None;
                LivenessChecker.details := None;
                LivenessChecker.error := Some (str e) |}.
Proof.
  unfold LivenessChecker.verify, run, try_except.
  destruct (LivenessChecker.verify_body L image_bytes face_location [])
    as [[r|e'] t]; cbn; [discriminate|].
  now intros [= ->].
Qed.

(** What the evaluation returns is what [verify] returns. *)
Lemma verify_passes_result (image_bytes : bytes) (face_location : option box)
    (r : LivenessChecker.LivenessResult) :
  run (LivenessChecker.verify_body L image_bytes face_location) = Returned r ->
  run (LivenessChecker.verify L image_bytes face_location) = Returned r.
Proof.
  unfold LivenessChecker.verify, run, try_except.
  destruct (LivenessChecker.verify_body L image_bytes face_location [])
    as [[r'|e'] t]; cbn; [|discriminate].
  now intros [= ->].
Qed.

(** C5: [verify] always returns a result, and whenever its evaluation raises
    an exception the result is the denial built from it: not verified,
    confidence zero, the exception's text as the error.  An image PIL cannot
    open is such a case. *)
Theorem verify_never_raises (image_bytes : bytes)
    (face_location : option box) :
  (exists r,
     run (LivenessChecker.verify L image_bytes face_location) = Returned r) /\
  (forall e,
     run (LivenessChecker.verify_body L image_bytes face_location) = Raised e ->
     exists r,
       run (LivenessChecker.verify L image_bytes face_location) = Returned r /\
       LivenessChecker.liveness_verified r = false /\
       LivenessChecker.confidence r = 0 /\
       LivenessChecker.error r = Some (str e)) /\
  (forall e,
     Image_open L image_bytes = Raised e ->
     run (LivenessChecker.verify_body L image_bytes face_location) = Raised e).
Proof.
  split; [|split].
  - destruct (run (LivenessChecker.verify_body L image_bytes face_location))
      as [r|e] eqn:E.
    + exists r. now apply verify_passes_result.
    + eexists. exact (verify_handler _ _ _ E).
  - intros e He. eexists. split; [exact (verify_handler _ _ _ He)|]. now cbn.
  - intros e He. unfold LivenessChecker.verify_body. py_unfold. cbn.
    now rewrite He.
Qed.

(** The outcome of a run, read backwards as the outcomes of its library
    calls, and those outcomes replayed in another run. *)
Ltac invert_run H :=
  repeat match type of H with
         | context [match ?o with Returned _ => _ | Raised _ => _ end] =>
             destruct o eqn:?; cbn in H; try discriminate H
         end.

Ltac replay :=
  repeat match goal with
         | H : ?x = Returned _ |- context [?x] => rewrite H; cbn
         | H : ?x = Raised _ |- context [?x] => rewrite H; cbn
         end.

(** The breakdown of a result is what the checks returned on the opened
    image. *)
Lemma verify_reports_check_outcomes (image_bytes : bytes)
    (face_location : option box) (r : LivenessChecker.LivenessResult)
    (img : pil_image L) (arr : ndarray L)
    (blur_result color_result : bool * Q) :
  run (LivenessChecker.verify L image_bytes face_location) = Returned r ->
  Image_open L image_bytes = Returned img ->
  np_array L img = Returned arr ->
  run (LivenessChecker.check_blur L arr 100) = Returned blur_result ->
  run (LivenessChecker.check_color_distribution L arr)
  = Returned color_result ->
  match face_location with
  | None =>
      LivenessChecker.checks r
      = Some {| LivenessChecker.blur := blur_result;
                LivenessChecker.color_distribution := color_result;
                LivenessChecker.eyes_detected := None |}
  | Some loc =>
      forall eyes_result,
        run (LivenessChecker.detect_eyes L arr loc) = Returned eyes_result ->
        LivenessChecker.checks r
        = Some {| LivenessChecker.blur := blur_result;
                  LivenessChecker.color_distribution := color_result;
                  LivenessChecker.eyes_detected := Some eyes_result |}
  end.
Proof.
  intros Hr Hopen Harr Hblur Hcolor.
  unfold LivenessChecker.check_blur, run, bind, call, ret in Hblur.
  cbn in Hblur. invert_run Hblur. injection Hblur as <-.
  unfold LivenessChecker.check_color_distribution, run, bind, call, ret
    in Hcolor.
  cbn in Hcolor. invert_run Hcolor. injection Hcolor as <-.
  revert Hr.
  destruct face_location as [loc|].
  - intros Hr eyes_result Heyes. revert Hr.
    unfold LivenessChecker.detect_eyes, run, try_except, bind, call, ret
      in Heyes.
    cbn in Heyes. invert_run Heyes; injection Heyes as <-.
    all: unfold LivenessChecker.verify, LivenessChecker.verify_body,
      LivenessChecker.check_blur, LivenessChecker.check_color_distribution,
      LivenessChecker.detect_eyes; py_unfold; cbn; replay.
    all: intros [= <-]; reflexivity.
  - unfold LivenessChecker.verify, LivenessChecker.verify_body,
      LivenessChecker.check_blur, LivenessChecker.check_color_distribution;
      py_unfold; cbn; replay.
    intros [= <-]; reflexivity.
Qed.

(** The score of a result, from its own breakdown. *)
Lemma verify_scores_its_breakdown (image_bytes : bytes)
    (face_location : option box) (r : LivenessChecker.LivenessResult) :
  run (LivenessChecker.verify L image_bytes face_location) = Returned r ->
  0 <= LivenessChecker.confidence r <= 1 /\
  (LivenessChecker.liveness_verified r = true <->
   0.7 <= LivenessChecker.confidence r) /\
  (forall c, LivenessChecker.checks r = Some c ->
     Vocabulary.total_checks_run c
     = match face_location with Some _ => 3%Z | None => 2%Z end /\
     LivenessChecker.confidence r
     == inject_Z (Vocabulary.passed_checks c)
        / inject_Z (Vocabulary.total_checks_run c) /\
     LivenessChecker.details r
     = Some (String.append (str_int (Vocabulary.passed_checks c))
               (String.append "/"
                  (String.append (str_int (Vocabulary.total_checks_run c))
                     " checks passed")))).
Proof.
  unfold LivenessChecker.verify, LivenessChecker.verify_body,
    LivenessChecker.check_blur, LivenessChecker.check_color_distribution,
    LivenessChecker.detect_eyes.
  py_unfold. cbn.
  destruct face_location as [loc|]; lib_cases; cbn.
  all: intros [= <-]; cbn.
  all: repeat match goal with
              | |- context [Qlt_bool ?a ?b && ?c] =>
                  destruct (Qlt_bool a b && c)
              | |- context [Qlt_bool ?a ?b] => destruct (Qlt_bool a b)
              | |- context [(?a <=? ?b)%Z] => destruct (a <=? b)%Z
              end.
  all: split; [split; apply Qle_bool_iff; reflexivity|].
  all: split;
    [match goal with
     | |- _ <-> (?a <= ?b) => exact (Qle_bool_iff a b)
     end|].
  all: intros c Hc; try discriminate Hc.
  all: injection Hc as <-; repeat split.
Qed.

(** C4: whatever [verify] returns, its confidence lies in [0, 1] and it is
    verified exactly when the confidence is at least 0.7.  When the result
    carries the per-check breakdown, two checks were run without a face
    location and three with one, the confidence is the number of passed
    checks divided by the number of checks run, and these are the two
    counters the result prints in its details.  And the breakdown is what
    the checks returned: for an image that opens, whatever [check_blur],
    [check_color_distribution] and, with a face location, [detect_eyes]
    return on it is what the result records, so the passed checks counted
    are the checks that passed. *)
Theorem verify_confidence (image_bytes : bytes)
    (face_location : option box) (r : LivenessChecker.LivenessResult) :
  run (LivenessChecker.verify L image_bytes face_location) = Returned r ->
  0 <= LivenessChecker.confidence r <= 1 /\
  (LivenessChecker.liveness_verified r = true <->
   0.7 <= LivenessChecker.confidence r) /\
  (forall c, LivenessChecker.checks r = Some c ->
     Vocabulary.total_checks_run c
     = match face_location with Some _ => 3%Z | None => 2%Z end /\
     LivenessChecker.confidence r
     == inject_Z (Vocabulary.passed_checks c)
        / inject_Z (Vocabulary.total_checks_run c) /\
     LivenessChecker.details r
     = Some (String.append (str_int (Vocabulary.passed_checks c))
               (String.append "/"
                  (String.append (str_int (Vocabulary.total_checks_run c))
                     " checks passed")))) /\
  (forall img arr blur_result color_result,
     Image_open L image_bytes = Returned img ->
     np_array L img = Returned arr ->
     run (LivenessChecker.check_blur L arr 100) = Returned blur_result ->
     run (LivenessChecker.check_color_distribution L arr)
     = Returned color_result ->
     match face_location with
     | None =>
         LivenessChecker.checks r
         = Some {| LivenessChecker.blur := blur_result;
                   LivenessChecker.color_distribution := color_result;
                   LivenessChecker.eyes_detected := None |}
     | Some loc =>
         forall eyes_result,
           run (LivenessChecker.detect_eyes L arr loc)
           = Returned eyes_result ->
           LivenessChecker.checks r
           = Some {| LivenessChecker.blur := blur_result;
                     LivenessChecker.color_distribution := color_result;
                     LivenessChecker.eyes_detected := Some eyes_result |}
     end).
Proof.
  intro Hr.
  destruct (verify_scores_its_breakdown image_bytes face_location r Hr)
    as (Hrange & Hverified & Hscore).
  split; [exact Hrange|]. split; [exact Hverified|].
  split; [exact Hscore|].
  intros img arr blur_result color_result Hopen Harr Hblur Hcolor.
  exact (verify_reports_check_outcomes image_bytes face_location r img arr
           blur_result color_result Hr Hopen Harr Hblur Hcolor).
Qed.

(** An unavailable detector makes [detect_eyes] return its fallback, whatever
    the trace so far. *)
Lemma detect_eyes_fallback (arr face gray : ndarray L) (loc : box) (t : trace) :
  np_crop L arr loc = Returned face ->
  cv2_cvtColor L face "COLOR_RGB2GRAY" = Returned gray ->
  Vocabulary.eye_detector_unavailable L gray ->
  fst (LivenessChecker.detect_eyes L arr loc t) = Returned (true, 2%Z).
Proof.
  intros Hcrop Hgray Hun.
  unfold LivenessChecker.detect_eyes. py_unfold. cbn.
  rewrite Hcrop. cbn. rewrite Hgray. cbn.
  destruct Hun as [[e He]|(c & e & Hc & He)].
  - cbv zeta in He. rewrite He. reflexivity.
  - cbv zeta in Hc, He. rewrite Hc. cbn. rewrite He. reflexivity.
Qed.

(** C6, as the code has it: when the eye detector is unavailable the eye
    check returns a pass with a count of two, and the pipeline goes on: the
    result of [verify] has no error, keeps the outcome of the two other
    checks, records the eye check as passed with two eyes, and counts it
    among three checks run.  Nothing in the result says the check was
    skipped. *)
Theorem eye_detector_unavailable_is_plain_pass (image_bytes : bytes)
    (loc : box) (img : pil_image L) (arr face gray : ndarray L)
    (r2 : LivenessChecker.LivenessResult) (c2 : LivenessChecker.Checks) :
  Image_open L image_bytes = Returned img ->
  np_array L img = Returned arr ->
  np_crop L arr loc = Returned face ->
  cv2_cvtColor L face "COLOR_RGB2GRAY" = Returned gray ->
  Vocabulary.eye_detector_unavailable L gray ->
  run (LivenessChecker.verify L image_bytes None) = Returned r2 ->
  LivenessChecker.checks r2 = Some c2 ->
  run (LivenessChecker.detect_eyes L arr loc) = Returned (true, 2%Z) /\
  exists r,
    run (LivenessChecker.verify L image_bytes (Some loc)) = Returned r /\
    LivenessChecker.error r = None /\
    LivenessChecker.checks r
    = Some {| LivenessChecker.blur := LivenessChecker.blur c2;
              LivenessChecker.color_distribution :=
                LivenessChecker.color_distribution c2;
              LivenessChecker.eyes_detected := Some (true, 2%Z) |} /\
    LivenessChecker.confidence r
    == inject_Z (Vocabulary.passed_checks c2 + 1) / 3.
Proof.
  intros Hopen Harr Hcrop Hgray Hun Hr2 Hc2.
  assert (Heyes : forall t,
            LivenessChecker.detect_eyes L arr loc t
            = (Returned (true, 2%Z),
               snd (LivenessChecker.detect_eyes L arr loc t))).
  { intro t. rewrite <- (detect_eyes_fallback arr face gray loc t Hcrop Hgray Hun).
    now destruct (LivenessChecker.detect_eyes L arr loc t). }
  split; [unfold run; now rewrite Heyes|].
  revert Hr2.
  unfold LivenessChecker.verify, LivenessChecker.verify_body,
    LivenessChecker.check_blur, LivenessChecker.check_color_distribution.
  unfold run, try_except, bind, call, ret.
  cbn -[LivenessChecker.detect_eyes].
  rewrite Hopen. cbn -[LivenessChecker.detect_eyes].
  rewrite Harr. cbn -[LivenessChecker.detect_eyes].
  lib_cases; cbn -[LivenessChecker.detect_eyes]; intros [= <-];
    try discriminate Hc2.
  rewrite Heyes. cbn in Hc2 |- *. injection Hc2 as <-.
  eexists. split; [reflexivity|]. cbn.
  split; [reflexivity|]. split; [reflexivity|].
  unfold Vocabulary.passed_checks. cbn.
  destruct (Qlt_bool 100 _), (Qlt_bool 0.15 _ && _); reflexivity.
Qed.

End Liveness.

(** The spec's scenario: sharpness 50 under the threshold of 100, a skin
    ratio of 0.30 and no face location give one passed check of two, a
    confidence of one half, and no verification. *)
Lemma verify_confidence_witness :
  let r := {| LivenessChecker.liveness_verified := false;
              LivenessChecker.confidence := 1 # 2;
              LivenessChecker.checks :=
                Some {| LivenessChecker.blur := (false, 50%Q);
                        LivenessChecker.color_distribution := (true, 30 # 100);
                        LivenessChecker.eyes_detected := None |};
              LivenessChecker.details := Some "1/2 checks passed";
              LivenessChecker.error := None |} in
  run (LivenessChecker.verify
         (Stub.libs (Stub.with_sharpness Stub.portrait 50)) Stub.upload None)
  = Returned r /\
  (0 <= LivenessChecker.confidence r <= 1)%Q /\
  (LivenessChecker.liveness_verified r = true <->
   (0.7 <= LivenessChecker.confidence r)%Q) /\
  (forall img arr blur_result color_result,
     Image_open (Stub.libs (Stub.with_sharpness Stub.portrait 50))
       Stub.upload = Returned img ->
     np_array (Stub.libs (Stub.with_sharpness Stub.portrait 50)) img
     = Returned arr ->
     run (LivenessChecker.check_blur
            (Stub.libs (Stub.with_sharpness Stub.portrait 50)) arr 100)
     = Returned blur_result ->
     run (LivenessChecker.check_color_distribution
            (Stub.libs (Stub.with_sharpness Stub.portrait 50)) arr)
     = Returned color_result ->
     blur_result = (false, 50%Q) /\ color_result = (true, 30 # 100)).
Proof.
  intro r.
  assert (H : run (LivenessChecker.verify
                     (Stub.libs (Stub.with_sharpness Stub.portrait 50))
                     Stub.upload None) = Returned r) by reflexivity.
  split; [exact H|].
  destruct (verify_confidence _ _ _ _ H) as (Hrange & Hiff & _ & Hchecks).
  split; [exact Hrange|]. split; [exact Hiff|].
  intros img arr blur_result color_result Hopen Harr Hblur Hcolor.
  specialize (Hchecks img arr blur_result color_result Hopen Harr Hblur
                Hcolor).
  cbn in Hchecks. injection Hchecks as Hb Hc.
  split; [symmetry; exact Hb|symmetry; exact Hc].
Defined.

Lemma verify_never_raises_witness :
  run (LivenessChecker.verify_body (Stub.libs (Stub.unreadable Stub.portrait))
         Stub.upload None)
  = Raised (Exn "UnidentifiedImageError" "cannot identify image file") /\
  exists r,
    run (LivenessChecker.verify (Stub.libs (Stub.unreadable Stub.portrait))
           Stub.upload None) = Returned r /\
    LivenessChecker.liveness_verified r = false /\
    LivenessChecker.confidence r = 0%Q /\
    LivenessChecker.error r = Some "cannot identify image file".
Proof.
  split; [reflexivity|].
  exact (proj1 (proj2 (verify_never_raises
                         (Stub.libs (Stub.unreadable Stub.portrait))
                         Stub.upload None)) _ eq_refl).
Defined.

(** C6 fails in its last part: no reading of the result tells a skipped eye
    check from one that ran, since the result with the cascade missing is
    the result with the cascade present and two eyes found. *)
Lemma skipped_eye_check_leaves_no_note :
  ~ exists note, Vocabulary.tells_skipped_eye_check note.
Proof.
  intros [note H].
  pose (loc := (40, 190, 190, 40)%Z).
  pose (r := {| LivenessChecker.liveness_verified := true;
                LivenessChecker.confidence := 3 # 3;
                LivenessChecker.checks :=
                  Some {| LivenessChecker.blur := (true, 250%Q);
                          LivenessChecker.color_distribution :=
                            (true, 30 # 100);
                          LivenessChecker.eyes_detected := Some (true, 2%Z) |};
                LivenessChecker.details := Some "3/3 checks passed";
                LivenessChecker.error := None |}).
  destruct (H (Stub.libs (Stub.without_eye_cascade Stub.portrait))
              Stub.upload loc 0%Z 0%Z 0%Z 0%Z r
              eq_refl eq_refl eq_refl eq_refl eq_refl) as [Hskipped _].
  destruct (H (Stub.libs Stub.portrait)
              Stub.upload loc 0%Z 0%Z 0%Z 0%Z r
              eq_refl eq_refl eq_refl eq_refl eq_refl) as [_ Hran].
  assert (Htrue : note r = true).
  { apply Hskipped. right. exists tt. eexists. split; reflexivity. }
  rewrite (Hran (Stub.eyes Stub.portrait)) in Htrue; [discriminate|].
  exists tt. split; reflexivity.
Qed.

Lemma eye_detector_unavailable_is_plain_pass_witness :
  let L := Stub.libs (Stub.without_eye_cascade Stub.portrait) in
  let loc := (40, 190, 190, 40)%Z in
  Vocabulary.eye_detector_unavailable L 0%Z /\
  run (LivenessChecker.detect_eyes L 0%Z loc) = Returned (true, 2%Z) /\
  exists r,
    run (LivenessChecker.verify L Stub.upload (Some loc)) = Returned r /\
    LivenessChecker.error r = None /\
    LivenessChecker.checks r
    = Some {| LivenessChecker.blur := (true, 250%Q);
              LivenessChecker.color_distribution := (true, 30 # 100);
              LivenessChecker.eyes_detected := Some (true, 2%Z) |} /\
    (LivenessChecker.confidence r == inject_Z (2 + 1) / 3)%Q.
Proof.
  cbv zeta.
  assert (Hun : Vocabulary.eye_detector_unavailable
                  (Stub.libs (Stub.without_eye_cascade Stub.portrait)) 0%Z)
    by (right; exists tt; eexists; split; reflexivity).
  split; [exact Hun|].
  pose (c2 := {| LivenessChecker.blur := (true, 250%Q);
                 LivenessChecker.color_distribution := (true, 30 # 100);
                 LivenessChecker.eyes_detected := None |}).
  pose (r2 := {| LivenessChecker.liveness_verified := true;
                 LivenessChecker.confidence := 2 # 2;
                 LivenessChecker.checks := Some c2;
                 LivenessChecker.details := Some "2/2 checks passed";
                 LivenessChecker.error := None |}).
  exact (eye_detector_unavailable_is_plain_pass
           (Stub.libs (Stub.without_eye_cascade Stub.portrait))
           Stub.upload (40, 190, 190, 40)%Z 0%Z 0%Z 0%Z 0%Z r2 c2
           eq_refl eq_refl eq_refl eq_refl Hun eq_refl eq_refl).
Defined.

(* ================================================================== *)
(** * The best-match scan of recognize_face *)
(* ================================================================== *)

Section Recognize.

Context (L : Libs) (face_engine : FaceEngine.t) (unknown_encoding : encoding).

Local Open Scope Q_scope.

Let matches := Vocabulary.candidate_matches L face_engine unknown_encoding.
Let conf := Vocabulary.candidate_confidence L face_engine unknown_encoding.
Let step := Routes.scan_step L face_engine unknown_encoding.

Lemma scan_step_cases (st : option Routes.User * Q) (user : Routes.User) :
  (matches user = true /\ snd st < conf user /\
   step st user = (Some user, conf user)) \/
  ((matches user = true -> conf user <= snd st) /\ step st user = st).
Proof.
  subst matches conf step.
  unfold Routes.scan_step, Vocabulary.candidate_matches,
    Vocabulary.candidate_confidence.
  destruct (FaceEngine.match_ _) eqn:Hm; cbn.
  - destruct (Qlt_bool (snd st) _) eqn:Hlt.
    + left. apply Qlt_bool_iff in Hlt. auto.
    + right. split; [|reflexivity]. intros _.
      apply Qnot_lt_le. intro Hc. apply Qlt_bool_iff in Hc. congruence.
  - right. split; [discriminate|reflexivity].
Qed.

(** Candidates that do not beat the best confidence so far leave the state
    of the loop as it is. *)
Lemma scan_keeps (l : list Routes.User) (st : option Routes.User * Q) :
  (forall v, In v l -> matches v = true -> conf v <= snd st) ->
  fold_left step l st = st.
Proof.
  induction l as [|x l IH]; intros Hl; [reflexivity|]. cbn.
  destruct (scan_step_cases st x) as [(Hm & Hlt & _)|(_ & ->)].
  - specialize (Hl x (or_introl eq_refl) Hm). lra.
  - apply IH. intros v Hv. apply Hl. now right.
Qed.

(** Candidates below a bound leave the best confidence below that bound. *)
Lemma scan_below (l : list Routes.User) (st : option Routes.User * Q) (c : Q) :
  snd st < c ->
  (forall v, In v l -> matches v = true -> conf v < c) ->
  snd (fold_left step l st) < c.
Proof.
  revert st. induction l as [|x l IH]; intros st Hst Hl; [exact Hst|]. cbn.
  apply IH; [|intros v Hv; apply Hl; now right].
  destruct (scan_step_cases st x) as [(Hm & _ & ->)|(_ & ->)]; [|exact Hst].
  cbn [snd]. apply Hl; [now left|exact Hm].
Qed.

(** What the loop leaves behind: either nothing beat the initial state, or
    the state is the first candidate of greatest confidence among those that
    match and beat it. *)
Lemma scan_selects (l : list Routes.User) (st : option Routes.User * Q) :
  (fold_left step l st = st /\
   forall v, In v l -> matches v = true -> conf v <= snd st) \/
  (exists before user after,
     l = before ++ user :: after /\
     matches user = true /\ snd st < conf user /\
     (forall v, In v before -> matches v = true -> conf v < conf user) /\
     (forall v, In v after -> matches v = true -> conf v <= conf user) /\
     fold_left step l st = (Some user, conf user)).
Proof.
  revert st. induction l as [|x l IH]; intros st.
  - left. split; [reflexivity|]. intros v [].
  - cbn [fold_left].
    destruct (scan_step_cases st x) as [(Hm & Hlt & Hstep)|(Hle & Hstep)];
      rewrite Hstep.
    + right. destruct (IH (Some x, conf x))
        as [(Hkeep & Hall)|(b & u & a & -> & Hmu & Hltu & Hb & Ha & Hres)].
      * exists [], x, l. cbn [snd] in Hall. repeat split; auto. intros v [].
      * exists (x :: b), u, a. cbn [snd] in Hltu. repeat split; auto; [lra|].
        intros v [<-|Hv] Hmv; [exact Hltu|now apply Hb].
    + destruct (IH st)
        as [(Hkeep & Hall)|(b & u & a & -> & Hmu & Hltu & Hb & Ha & Hres)].
      * left. split; [exact Hkeep|].
        intros v [<-|Hv] Hmv; [now apply Hle|now apply Hall].
      * right. exists (x :: b), u, a. repeat split; auto.
        intros v [<-|Hv] Hmv; [|now apply Hb].
        specialize (Hle Hmv). lra.
Qed.

(** C1, as the code has it: attendance is recorded for [user] with
    confidence [c] exactly when [user] is the first candidate of highest
    confidence among the enrolled users that match at the engine's
    tolerance, [c] is that confidence, it is positive, and it is at least the
    configured [FACE_TOLERANCE]. *)
Theorem recognize_match_first_best (app_config : Config.t)
    (users : list Routes.User) (user : Routes.User) (c : Q) :
  Routes.recognize_match L face_engine app_config users unknown_encoding
  = Some (user, c)
  <->
  Vocabulary.first_best_match L face_engine unknown_encoding
    (Routes.enrolled_users users) user /\
  c = Vocabulary.candidate_confidence L face_engine unknown_encoding user /\
  0 < c /\ Config.FACE_TOLERANCE app_config <= c.
Proof.
  unfold Routes.recognize_match, Routes.best_match_scan,
    Vocabulary.first_best_match.
  fold step matches conf.
  set (enrolled := Routes.enrolled_users users).
  split.
  - destruct (scan_selects enrolled (None, 0))
      as [(-> & _)|(b & u & a & Hsplit & Hm & Hlt & Hb & Ha & ->)];
      [discriminate|].
    destruct (Qle_bool _ _) eqn:Htol; [|discriminate].
    intros [= <- <-]. apply Qle_bool_iff in Htol. cbn [snd] in Hlt.
    repeat split; auto. exists b, a. auto.
  - intros [(b & a & Hsplit & Hm & Hb & Ha) (-> & Hpos & Htol)].
    rewrite Hsplit, fold_left_app. cbn [fold_left].
    pose proof (scan_below b (None, 0) (conf user) Hpos Hb) as Hbelow.
    destruct (scan_step_cases (fold_left step b (None, 0)) user)
      as [(_ & _ & ->)|(Hle & _)]; [|specialize (Hle Hm); lra].
    rewrite scan_keeps by exact Ha.
    apply Qle_bool_iff in Htol. now rewrite Htol.
Qed.

End Recognize.

(** C1 fails as stated.  Under the default configuration a single enrolled
    user at distance 0.5 matches (tolerance 0.6) and is the best candidate,
    yet nobody is recognized, because the confidence 0.5 is below 0.6.  And
    under a tolerance of 1.2 a single enrolled user at distance 1.1 matches,
    yet the loop selects nobody, because the confidence is not positive. *)
Lemma recognize_match_rejects_best_candidate :
  let L := Stub.libs Stub.portrait in
  (Vocabulary.first_best_match L Stub.face_engine (Stub.axis 0)
     (Routes.enrolled_users [Stub.student 1 0.5]) (Stub.student 1 0.5) /\
   Routes.recognize_match L Stub.face_engine Config.default
     [Stub.student 1 0.5] (Stub.axis 0) = None) /\
  (let e := FaceEngine.__init__ Stub.lenient None None in
   Vocabulary.first_best_match L e (Stub.axis 0)
     (Routes.enrolled_users [Stub.student 1 1.1]) (Stub.student 1 1.1) /\
   Routes.best_match_scan L e (Routes.enrolled_users [Stub.student 1 1.1])
     (Stub.axis 0) = (None, 0%Q)).
Proof.
  cbv zeta. repeat split.
  - exists [], []. repeat split; try (intros v []).
  - exists [], []. repeat split; try (intros v []).
Qed.

(** The tie rule on a concrete scan: of two users at the same distance the
    one enumerated first is recognized, whichever it is. *)
Lemma recognize_match_tie_goes_to_first :
  let L := Stub.libs Stub.portrait in
  option_map (fun p => Routes.id (fst p))
    (Routes.recognize_match L Stub.face_engine Config.default
       [Stub.student 1 0.5; Stub.student 2 0.2; Stub.student 3 0.2]
       (Stub.axis 0)) = Some 2%Z /\
  option_map (fun p => Routes.id (fst p))
    (Routes.recognize_match L Stub.face_engine Config.default
       [Stub.student 3 0.2; Stub.student 1 0.5; Stub.student 2 0.2]
       (Stub.axis 0)) = Some 3%Z.
Proof. split; reflexivity. Qed.

(* ================================================================== *)
(** * More on FaceEngine.preprocess_image *)
(* ================================================================== *)

Section PreprocessMore.

Context (L : Libs).

Local Open Scope Z_scope.

(** X1: [preprocess_image] never raises, and it returns either an image and
    no error, or no image and an error text that is not empty, so that the
    callers' test [if error:] sees every failure. *)
Theorem preprocess_image_image_or_error (self : FaceEngine.t)
    (image_bytes : bytes) (max_size_mb : Z) :
  let m := FaceEngine.preprocess_image L self image_bytes max_size_mb in
  (exists image, run m = Returned (Some image, None)) \/
  (exists text, run m = Returned (None, Some text) /\ text <> "").
Proof.
  cbv zeta. rewrite preprocess_image_unfold.
  destruct (max_size_mb * 1024 * 1024 <? Z.of_nat (length image_bytes)).
  - right. eexists. split; [reflexivity|discriminate].
  - py_unfold. cbn.
    destruct (Image_open L image_bytes) as [img|e] eqn:Hopen; cbn;
      [|right; eexists; split; [reflexivity|discriminate]].
    destruct (negb (String.eqb (Image_mode L img) "RGB")); cbn;
      lib_cases; cbn;
      solve [left; eexists; reflexivity
            |right; eexists; split; [reflexivity|discriminate]].
Qed.

(** X2: the answer is "Image too large" exactly when the buffer is longer
    than [max_size_mb] times 1024 * 1024 bytes; a buffer of exactly that
    length is let through. *)
Theorem preprocess_image_too_large_iff (self : FaceEngine.t)
    (image_bytes : bytes) (max_size_mb : Z) :
  run (FaceEngine.preprocess_image L self image_bytes max_size_mb)
  = Returned (None, Some "Image too large")
  <-> max_size_mb * 1024 * 1024 < Z.of_nat (length image_bytes).
Proof.
  rewrite preprocess_image_unfold.
  destruct (max_size_mb * 1024 * 1024 <? Z.of_nat (length image_bytes))
    eqn:Hbig.
  - apply Z.ltb_lt in Hbig. split; [intros _; exact Hbig|reflexivity].
  - apply Z.ltb_ge in Hbig. split; [|lia].
    py_unfold. cbn.
    destruct (Image_open L image_bytes) as [img|e] eqn:Hopen; cbn;
      [|discriminate].
    destruct (negb (String.eqb (Image_mode L img) "RGB")); cbn;
      lib_cases; cbn; discriminate.
Qed.

(** X3: when the buffer fits and PIL opens it, the image returned is the
    reload of the JPEG saved at quality 85 from the RGB version of the
    picture: the picture itself when its mode is RGB, its conversion
    otherwise.  The run makes exactly these calls, and converts only when the
    mode is not RGB. *)
Theorem preprocess_image_reloads_rgb_jpeg (self : FaceEngine.t)
    (image_bytes : bytes) (max_size_mb : Z)
    (img rgb : pil_image L) (jpeg : bytes) (image : ndarray L) :
  Z.of_nat (length image_bytes) <= max_size_mb * 1024 * 1024 ->
  Image_open L image_bytes = Returned img ->
  (Image_mode L img = "RGB" /\ rgb = img \/
   Image_mode L img <> "RGB" /\ Image_convert L img "RGB" = Returned rgb) ->
  Image_save L rgb "JPEG" 85 = Returned jpeg ->
  load_image_file L jpeg = Returned image ->
  let m := FaceEngine.preprocess_image L self image_bytes max_size_mb in
  run m = Returned (Some image, None) /\
  calls m = PIL_Image_open
            :: (if String.eqb (Image_mode L img) "RGB" then []
                else [PIL_convert "RGB"])
            ++ [PIL_save "JPEG" 85; FR_load_image_file].
Proof.
  intros Hfit Hopen Hrgb Hsave Hload. cbv zeta.
  rewrite preprocess_image_unfold.
  apply Z.ltb_ge in Hfit. rewrite Hfit.
  py_unfold. cbn. rewrite Hopen. cbn.
  destruct Hrgb as [[Hmode ->]|[Hmode Hconv]].
  - rewrite Hmode. cbn. rewrite Hsave. cbn. rewrite Hload. split; reflexivity.
  - apply String.eqb_neq in Hmode. rewrite Hmode. cbn.
    rewrite Hconv. cbn. rewrite Hsave. cbn. rewrite Hload. split; reflexivity.
Qed.

(** X4: when the buffer fits, the first call that fails (conversion, saving
    or reloading, as well as opening) decides the answer: no image, and the
    text "Image processing error: " followed by that exception's text. *)
Theorem preprocess_image_reports_first_failure (self : FaceEngine.t)
    (image_bytes : bytes) (max_size_mb : Z) (e : exn) :
  Z.of_nat (length image_bytes) <= max_size_mb * 1024 * 1024 ->
  (Image_open L image_bytes = Raised e \/
   exists img,
     Image_open L image_bytes = Returned img /\
     (Image_mode L img <> "RGB" /\ Image_convert L img "RGB" = Raised e \/
      exists rgb,
        (Image_mode L img = "RGB" /\ rgb = img \/
         Image_mode L img <> "RGB" /\
         Image_convert L img "RGB" = Returned rgb) /\
        (Image_save L rgb "JPEG" 85 = Raised e \/
         exists jpeg,
           Image_save L rgb "JPEG" 85 = Returned jpeg /\
           load_image_file L jpeg = Raised e))) ->
  run (FaceEngine.preprocess_image L self image_bytes max_size_mb)
  = Returned (None, Some (String.append "Image processing error: " (str e))).
Proof.
  intros Hfit Hfail.
  rewrite preprocess_image_unfold.
  apply Z.ltb_ge in Hfit. rewrite Hfit.
  py_unfold. cbn.
  destruct Hfail as [Hopen|(img & Hopen & Hrest)]; rewrite Hopen; cbn;
    [reflexivity|].
  destruct Hrest as [[Hmode Hconv]|(rgb & Hrgb & Hlater)].
  - apply String.eqb_neq in Hmode. rewrite Hmode. cbn. now rewrite Hconv.
  - destruct Hrgb as [[Hmode ->]|[Hmode Hconv]].
    + rewrite Hmode. cbn.
      destruct Hlater as [Hsave|(jpeg & Hsave & Hload)]; rewrite Hsave; cbn;
        [reflexivity|]. now rewrite Hload.
    + apply String.eqb_neq in Hmode. rewrite Hmode. cbn. rewrite Hconv. cbn.
      destruct Hlater as [Hsave|(jpeg & Hsave & Hload)]; rewrite Hsave; cbn;
        [reflexivity|]. now rewrite Hload.
Qed.

End PreprocessMore.

Lemma preprocess_image_reloads_rgb_jpeg_witness :
  let L := Stub.libs Samples.rgba_portrait in
  (Z.of_nat (length Stub.upload) <= 5 * 1024 * 1024)%Z /\
  Image_mode L 0%Z <> "RGB" /\
  run (FaceEngine.preprocess_image L Stub.face_engine Stub.upload 5)
  = Returned (Some 0%Z, None) /\
  calls (FaceEngine.preprocess_image L Stub.face_engine Stub.upload 5)
  = [PIL_Image_open; PIL_convert "RGB"; PIL_save "JPEG" 85;
     FR_load_image_file].
Proof.
  cbv zeta.
  assert (Hfit : (Z.of_nat (length Stub.upload) <= 5 * 1024 * 1024)%Z)
    by (cbn; lia).
  assert (Hmode : Image_mode (Stub.libs Samples.rgba_portrait) 0%Z <> "RGB")
    by discriminate.
  split; [exact Hfit|]. split; [exact Hmode|].
  exact (preprocess_image_reloads_rgb_jpeg (Stub.libs Samples.rgba_portrait)
           Stub.face_engine Stub.upload 5 0%Z 0%Z [] 0%Z
           Hfit eq_refl (or_intror (conj Hmode eq_refl)) eq_refl eq_refl).
Defined.

Lemma preprocess_image_reports_first_failure_witness :
  (Z.of_nat (length Stub.upload) <= 5 * 1024 * 1024)%Z /\
  run (FaceEngine.preprocess_image Samples.failing_save Stub.face_engine
         Stub.upload 5)
  = Returned
      (None,
       Some "Image processing error: encoder error -2 when writing image file").
Proof.
  assert (Hfit : (Z.of_nat (length Stub.upload) <= 5 * 1024 * 1024)%Z)
    by (cbn; lia).
  split; [exact Hfit|].
  apply (preprocess_image_reports_first_failure Samples.failing_save
           Stub.face_engine Stub.upload 5
           (Exn "OSError" "encoder error -2 when writing image file") Hfit).
  right. exists 0%Z. split; [reflexivity|]. right. exists 0%Z.
  split; [left; split; reflexivity|]. left. reflexivity.
Defined.

(* ================================================================== *)
(** * More on validate_image_quality and compare_faces *)
(* ================================================================== *)

Section EngineMore.

Context (L : Libs).

(** X5: [validate_image_quality] asks the detector exactly once and does not
    catch what the detector raises: the caller gets that exception. *)
Theorem validate_image_quality_propagates (self : FaceEngine.t)
    (image : ndarray L) (min_face_size : Z) :
  let m := FaceEngine.validate_image_quality L self image min_face_size in
  calls m = [FR_face_locations] /\
  (forall e,
     face_locations L image (FaceEngine.model self) = Raised e ->
     run m = Raised e) /\
  (forall e,
     run m = Raised e ->
     face_locations L image (FaceEngine.model self) = Raised e).
Proof.
  cbv zeta.
  unfold FaceEngine.validate_image_quality, FaceEngine.detect_faces.
  py_unfold. cbn.
  destruct (face_locations L image (FaceEngine.model self))
    as [found|e0] eqn:Hfound; cbn.
  - destruct found as [|[[[top right_] bottom] left_] rest]; cbn;
      [|destruct (1 <? _)%Z; cbn; [|destruct (_ || _)%bool; cbn]];
      repeat split; intros; discriminate.
  - repeat split; intros e [= ->]; reflexivity.
Qed.

Local Open Scope Q_scope.

(** X7: the tolerance in force in a comparison is the one given to
    [compare_faces] unless it is missing or zero, else the one given to the
    constructor unless it is missing or zero, else the configured one.  Over
    a configuration whose tolerance is not zero it is never zero, whatever
    is given to the constructor and to [compare_faces], and the comparison
    is a match exactly when the distance is at most it. *)
Theorem tolerance_in_force_never_zero (cfg : Config.t)
    (init_tolerance : option Q) (model : option string)
    (k u : encoding) (tolerance : option Q) :
  ~ Config.FACE_TOLERANCE cfg == 0 ->
  let t := or_num tolerance
             (or_num init_tolerance (Config.FACE_TOLERANCE cfg)) in
  ~ t == 0 /\
  (FaceEngine.match_
     (FaceEngine.compare_faces L
        (FaceEngine.__init__ cfg init_tolerance model) k u tolerance)
   = true <-> norm_diff L k u <= t).
Proof.
  intros Hcfg t.
  assert (Hnz : forall a b, ~ b == 0 -> ~ or_num a b == 0).
  { intros [q|] b Hb; [|exact Hb]. unfold or_num.
    destruct (truthy_num q) eqn:Hq; [|exact Hb].
    intro H. apply truthy_num_false_iff in H. congruence. }
  split.
  - apply Hnz. now apply Hnz.
  - rewrite (proj2 (proj2 (compare_faces_fields L _ k u tolerance))).
    apply Qle_bool_iff.
Qed.

End EngineMore.

Lemma validate_image_quality_propagates_witness :
  face_locations Samples.failing_detector 0%Z
    (FaceEngine.model Stub.face_engine)
  = Raised (Exn "RuntimeError" "Unsupported image type") /\
  run (FaceEngine.validate_image_quality Samples.failing_detector
         Stub.face_engine 0%Z 80)
  = Raised (Exn "RuntimeError" "Unsupported image type").
Proof.
  split; [reflexivity|].
  exact (proj1 (proj2 (validate_image_quality_propagates
                         Samples.failing_detector Stub.face_engine 0%Z 80))
           _ eq_refl).
Defined.

Lemma tolerance_in_force_never_zero_witness :
  ~ (Config.FACE_TOLERANCE Config.default == 0)%Q /\
  ~ (or_num (Some 0%Q)
       (or_num (Some 0%Q) (Config.FACE_TOLERANCE Config.default)) == 0)%Q /\
  (FaceEngine.match_
     (FaceEngine.compare_faces (Stub.libs Stub.portrait)
        (FaceEngine.__init__ Config.default (Some 0%Q) None)
        (Stub.axis 0) (Stub.axis 0.3) (Some 0%Q)) = true
   <-> (norm_diff (Stub.libs Stub.portrait) (Stub.axis 0) (Stub.axis 0.3)
        <= or_num (Some 0%Q)
             (or_num (Some 0%Q) (Config.FACE_TOLERANCE Config.default)))%Q).
Proof.
  assert (H : ~ (Config.FACE_TOLERANCE Config.default == 0)%Q)
    by (intro H; vm_compute in H; discriminate).
  split; [exact H|].
  exact (tolerance_in_force_never_zero (Stub.libs Stub.portrait)
           Config.default (Some 0%Q) None (Stub.axis 0) (Stub.axis 0.3)
           (Some 0%Q) H).
Defined.

(* ================================================================== *)
(** * More on LivenessChecker *)
(* ================================================================== *)


Section LivenessMore.

Context (L : Libs).

Local Open Scope Q_scope.

(** X8: whatever [detect_eyes] returns, it reports a pass exactly when the
    count it reports is at least two; this holds for the fallback as well. *)
Theorem detect_eyes_pass_iff_two (image_array : ndarray L)
    (face_location : box) (passed : bool) (count : Z) :
  run (LivenessChecker.detect_eyes L image_array face_location)
  = Returned (passed, count) ->
  (passed = true <-> (2 <= count)%Z) /\ (0 <= count)%Z.
Proof.
  unfold LivenessChecker.detect_eyes. py_unfold. cbn.
  lib_cases; cbn; intros [= <- <-];
    (split; [first [apply Z.leb_le | split; [lia|reflexivity]]|lia]).
Qed.

(** X9: [detect_eyes] raises only what the slicing of the face region or its
    conversion to grayscale raises; a failure of the cascade never reaches
    the caller. *)
Theorem detect_eyes_raises_before_cascade (image_array : ndarray L)
    (face_location : box) (e : exn) :
  run (LivenessChecker.detect_eyes L image_array face_location) = Raised e
  <->
  (np_crop L image_array face_location = Raised e \/
   exists face,
     np_crop L image_array face_location = Returned face /\
     cv2_cvtColor L face "COLOR_RGB2GRAY" = Raised e).
Proof.
  unfold LivenessChecker.detect_eyes. py_unfold. cbn.
  destruct (np_crop L image_array face_location) as [face|e0] eqn:Hcrop; cbn.
  - destruct (cv2_cvtColor L face "COLOR_RGB2GRAY") as [gray|e1] eqn:Hgray;
      cbn.
    + lib_cases; cbn; split; try discriminate;
        intros [H|(f & [= <-] & H)]; congruence.
    + split.
      * intros [= ->]. right. exists face. auto.
      * intros [H|(f & [= <-] & H)]; congruence.
  - split.
    + intros [= ->]. now left.
    + intros [H|(f & H & _)]; congruence.
Qed.

(** X10: in every result of [verify] that carries the breakdown, each
    'passed' flag agrees with the score recorded next to it: sharpness above
    100, skin ratio strictly between 0.15 and 0.60, at least two eyes. *)
Theorem verify_flags_agree_with_scores (image_bytes : bytes)
    (face_location : option box) (r : LivenessChecker.LivenessResult)
    (c : LivenessChecker.Checks) :
  run (LivenessChecker.verify L image_bytes face_location) = Returned r ->
  LivenessChecker.checks r = Some c ->
  (fst (LivenessChecker.blur c) = true
   <-> 100 < snd (LivenessChecker.blur c)) /\
  (fst (LivenessChecker.color_distribution c) = true
   <-> 0.15 < snd (LivenessChecker.color_distribution c) < 0.60) /\
  (forall passed count,
     LivenessChecker.eyes_detected c = Some (passed, count) ->
     (passed = true <-> (2 <= count)%Z)).
Proof.
  unfold LivenessChecker.verify, LivenessChecker.verify_body,
    LivenessChecker.check_blur, LivenessChecker.check_color_distribution,
    LivenessChecker.detect_eyes.
  py_unfold. cbn.
  destruct face_location as [loc|]; lib_cases; cbn.
  all: intros [= <-]; cbn; intros Hc; try discriminate Hc.
  all: injection Hc as <-; cbn.
  all: split; [apply Qlt_bool_iff|].
  all: split;
    [rewrite andb_true_iff, !Qlt_bool_iff; reflexivity|].
  all: intros passed count [= <- <-];
    first [apply Z.leb_le | split; [lia|reflexivity]].
Qed.

(** X11: a result that carries the breakdown is verified exactly when every
    check that was run passed; seventy per cent of two or three checks is
    all of them. *)
Theorem verify_verified_iff_all_passed (image_bytes : bytes)
    (face_location : option box) (r : LivenessChecker.LivenessResult)
    (c : LivenessChecker.Checks) :
  run (LivenessChecker.verify L image_bytes face_location) = Returned r ->
  LivenessChecker.checks r = Some c ->
  (LivenessChecker.liveness_verified r = true
   <-> Vocabulary.passed_checks c = Vocabulary.total_checks_run c) /\
  (LivenessChecker.liveness_verified r = true
   <-> LivenessChecker.confidence r == 1).
Proof.
  unfold LivenessChecker.verify, LivenessChecker.verify_body,
    LivenessChecker.check_blur, LivenessChecker.check_color_distribution,
    LivenessChecker.detect_eyes.
  py_unfold. cbn.
  destruct face_location as [loc|]; lib_cases; cbn.
  all: intros [= <-]; cbn; intros Hc; try discriminate Hc.
  all: injection Hc as <-; cbn.
  all: repeat match goal with
              | |- context [Qlt_bool ?a ?b && ?c] =>
                  destruct (Qlt_bool a b && c)
              | |- context [Qlt_bool ?a ?b] => destruct (Qlt_bool a b)
              | |- context [(?a <=? ?b)%Z] => destruct (a <=? b)%Z
              end.
  all: split; split; intro H;
    first [reflexivity | exfalso; vm_compute in H; discriminate H].
Qed.

(** X12: a result of [verify] either carries the breakdown and the details
    and no error, or carries an error and neither of the two, and then it is
    a denial with confidence zero.  A verified result never carries an
    error. *)
Theorem verify_result_shape (image_bytes : bytes)
    (face_location : option box) (r : LivenessChecker.LivenessResult) :
  run (LivenessChecker.verify L image_bytes face_location) = Returned r ->
  (LivenessChecker.error r = None /\
   LivenessChecker.checks r <> None /\ LivenessChecker.details r <> None) \/
  (LivenessChecker.error r <> None /\
   LivenessChecker.checks r = None /\ LivenessChecker.details r = None /\
   LivenessChecker.liveness_verified r = false /\
   LivenessChecker.confidence r = 0).
Proof.
  unfold LivenessChecker.verify, run, try_except.
  destruct (LivenessChecker.verify_body L image_bytes face_location [])
    as [[r'|e] t] eqn:Hbody; cbn; intros [= <-].
  - left. revert Hbody.
    unfold LivenessChecker.verify_body,
      LivenessChecker.check_blur, LivenessChecker.check_color_distribution,
      LivenessChecker.detect_eyes.
    py_unfold. cbn.
    destruct face_location as [loc|]; lib_cases; cbn;
      intros [= <- _]; cbn; repeat split; discriminate.
  - right. cbn. repeat split; discriminate.
Qed.

(** X13: without a face location [verify] never slices the image and never
    touches the eye cascade. *)
Theorem verify_without_location_skips_eyes (image_bytes : bytes)
    (c : libcall) :
  In c (calls (LivenessChecker.verify L image_bytes None)) ->
  c <> NP_crop /\ c <> CV_detectMultiScale /\
  forall path, c <> CV_CascadeClassifier path.
Proof.
  unfold LivenessChecker.verify, LivenessChecker.verify_body,
    LivenessChecker.check_blur, LivenessChecker.check_color_distribution.
  py_unfold. cbn.
  lib_cases; cbn; intuition (subst; discriminate).
Qed.

End LivenessMore.

Lemma detect_eyes_pass_iff_two_witness :
  run (LivenessChecker.detect_eyes (Stub.libs Samples.one_eyed_portrait)
         0%Z (40, 190, 190, 40)%Z) = Returned (false, 1%Z) /\
  ((false = true <-> (2 <= 1)%Z) /\ (0 <= 1)%Z).
Proof.
  split; [reflexivity|].
  exact (detect_eyes_pass_iff_two (Stub.libs Samples.one_eyed_portrait)
           0%Z (40, 190, 190, 40)%Z false 1%Z eq_refl).
Defined.

Lemma verify_flags_agree_with_scores_witness :
  let r := {| LivenessChecker.liveness_verified := false;
              LivenessChecker.confidence := 1 # 2;
              LivenessChecker.checks :=
                Some {| LivenessChecker.blur := (false, 50%Q);
                        LivenessChecker.color_distribution := (true, 30 # 100);
                        LivenessChecker.eyes_detected := None |};
              LivenessChecker.details := Some "1/2 checks passed";
              LivenessChecker.error := None |} in
  run (LivenessChecker.verify
         (Stub.libs (Stub.with_sharpness Stub.portrait 50)) Stub.upload None)
  = Returned r /\
  (false = true <-> (100 < 50)%Q) /\
  (true = true <-> (0.15 < 30 # 100 < 0.60)%Q).
Proof.
  intro r.
  assert (H : run (LivenessChecker.verify
                     (Stub.libs (Stub.with_sharpness Stub.portrait 50))
                     Stub.upload None) = Returned r) by reflexivity.
  split; [exact H|].
  destruct (verify_flags_agree_with_scores _ _ _ _ _ H eq_refl)
    as (Hblur & Hcolor & _).
  split; [exact Hblur|exact Hcolor].
Defined.

Lemma verify_verified_iff_all_passed_witness :
  let c := {| LivenessChecker.blur := (true, 250%Q);
              LivenessChecker.color_distribution := (true, 30 # 100);
              LivenessChecker.eyes_detected := Some (false, 1%Z) |} in
  let r := {| LivenessChecker.liveness_verified := false;
              LivenessChecker.confidence := 2 # 3;
              LivenessChecker.checks := Some c;
              LivenessChecker.details := Some "2/3 checks passed";
              LivenessChecker.error := None |} in
  run (LivenessChecker.verify (Stub.libs Samples.one_eyed_portrait)
         Stub.upload (Some (40, 190, 190, 40)%Z)) = Returned r /\
  (LivenessChecker.liveness_verified r = true
   <-> Vocabulary.passed_checks c = Vocabulary.total_checks_run c).
Proof.
  intros c r.
  assert (H : run (LivenessChecker.verify
                     (Stub.libs Samples.one_eyed_portrait)
                     Stub.upload (Some (40, 190, 190, 40)%Z)) = Returned r)
    by reflexivity.
  split; [exact H|].
  exact (proj1 (verify_verified_iff_all_passed _ _ _ _ _ H eq_refl)).
Defined.

Lemma verify_result_shape_witness :
  let r := {| LivenessChecker.liveness_verified := false;
              LivenessChecker.confidence := 0;
              LivenessChecker.checks := None;
              LivenessChecker.details := None;
              LivenessChecker.error := Some "too many indices for array" |} in
  run (LivenessChecker.verify Samples.failing_crop Stub.upload
         (Some (40, 190, 190, 40)%Z)) = Returned r /\
  LivenessChecker.details r = None.
Proof.
  intro r.
  assert (H : run (LivenessChecker.verify Samples.failing_crop Stub.upload
                     (Some (40, 190, 190, 40)%Z)) = Returned r)
    by reflexivity.
  split; [exact H|].
  destruct (verify_result_shape _ _ _ _ H)
    as [(Herr & _)|(_ & _ & Hd & _)]; [discriminate Herr|exact Hd].
Defined.

Lemma verify_without_location_skips_eyes_witness :
  In (CV_cvtColor "COLOR_RGB2HSV")
     (calls (LivenessChecker.verify (Stub.libs Stub.portrait) Stub.upload None))
  /\ CV_cvtColor "COLOR_RGB2HSV" <> NP_crop.
Proof.
  assert (H : In (CV_cvtColor "COLOR_RGB2HSV")
                (calls (LivenessChecker.verify (Stub.libs Stub.portrait)
                          Stub.upload None)))
    by (cbn; tauto).
  split; [exact H|].
  exact (proj1 (verify_without_location_skips_eyes (Stub.libs Stub.portrait)
                  Stub.upload _ H)).
Defined.

(* ================================================================== *)
(** * More on the best-match scan *)
(* ================================================================== *)


Section RecognizeMore.

Context (L : Libs) (face_engine : FaceEngine.t) (unknown_encoding : encoding).

Local Open Scope Q_scope.

Let matches := Vocabulary.candidate_matches L face_engine unknown_encoding.
Let conf := Vocabulary.candidate_confidence L face_engine unknown_encoding.
Let step := Routes.scan_step L face_engine unknown_encoding.

(** What a scan from the initial state leaves behind, by cases. *)
Lemma best_match_scan_cases (enrolled : list Routes.User) :
  (Routes.best_match_scan L face_engine enrolled unknown_encoding = (None, 0)
   /\ forall v, In v enrolled -> matches v = true -> conf v <= 0) \/
  (exists user,
     Routes.best_match_scan L face_engine enrolled unknown_encoding
     = (Some user, conf user) /\
     In user enrolled /\ matches user = true /\ 0 < conf user /\
     forall v, In v enrolled -> matches v = true -> conf v <= conf user).
Proof.
  unfold Routes.best_match_scan. fold step.
  destruct (scan_selects L face_engine unknown_encoding enrolled (None, 0))
    as [(Hkeep & Hall)|(b & u & a & -> & Hm & Hlt & Hb & Ha & Hres)].
  - left. split; [exact Hkeep|exact Hall].
  - right. exists u. cbn [snd] in Hlt.
    split; [exact Hres|]. split; [apply in_elt|]. split; [exact Hm|].
    split; [exact Hlt|].
    intros v Hv Hmv. apply in_app_or in Hv.
    destruct Hv as [Hv|[<-|Hv]].
    + apply Qlt_le_weak. now apply Hb.
    + apply Qle_refl.
    + now apply Ha.
Qed.

(** What [recognize_match] returns, by the same cases. *)
Lemma recognize_match_cases (app_config : Config.t)
    (users : list Routes.User) :
  let enrolled := Routes.enrolled_users users in
  let result :=
    Routes.recognize_match L face_engine app_config users unknown_encoding in
  (result = None /\
   forall v, In v enrolled -> matches v = true -> conf v <= 0) \/
  (exists user,
     In user enrolled /\ matches user = true /\ 0 < conf user /\
     (forall v, In v enrolled -> matches v = true -> conf v <= conf user) /\
     result = if Qle_bool (Config.FACE_TOLERANCE app_config) (conf user)
              then Some (user, conf user) else None).
Proof.
  cbv zeta. unfold Routes.recognize_match.
  destruct (best_match_scan_cases (Routes.enrolled_users users))
    as [(-> & Hall)|(u & -> & Hin & Hm & Hpos & Hbest)].
  - left. split; [reflexivity|exact Hall].
  - right. exists u. repeat split; auto.
Qed.

(** X14: only an enrolled user is ever recognized: one of the users given,
    active, consenting, and holding an encoding. *)
Theorem recognize_match_only_enrolled (app_config : Config.t)
    (users : list Routes.User) (user : Routes.User) (c : Q) :
  Routes.recognize_match L face_engine app_config users unknown_encoding
  = Some (user, c) ->
  In user users /\ Routes.is_active user = true /\
  Routes.consent_given user = true /\ Routes.face_encoding user <> None.
Proof.
  intro H.
  destruct (recognize_match_cases app_config users)
    as [(Hnone & _)|(u & Hin & _ & _ & _ & Hres)];
    [congruence|].
  rewrite Hres in H. destruct (Qle_bool _ _); [|discriminate].
  injection H as -> _.
  unfold Routes.enrolled_users in Hin. apply filter_In in Hin.
  destruct Hin as [Hin Hf].
  apply andb_true_iff in Hf. destruct Hf as [Hf Hconsent].
  apply andb_true_iff in Hf. destruct Hf as [Henc Hactive].
  repeat split; auto. intro Hnone. now rewrite Hnone in Henc.
Qed.

(** X15: a recognized user has passed both thresholds: the distance between
    the stored and the submitted encoding is at most the engine's tolerance,
    and the confidence reported is that user's, is positive and is at least
    the configured [FACE_TOLERANCE]. *)
Theorem recognize_match_distance_bounds (app_config : Config.t)
    (users : list Routes.User) (user : Routes.User) (c : Q) :
  Routes.recognize_match L face_engine app_config users unknown_encoding
  = Some (user, c) ->
  norm_diff L (Routes.known_encoding user) unknown_encoding
  <= FaceEngine.tolerance face_engine /\
  c = Vocabulary.candidate_confidence L face_engine unknown_encoding user /\
  0 < c /\
  Config.FACE_TOLERANCE app_config <= c.
Proof.
  intro H.
  destruct (recognize_match_cases app_config users)
    as [(Hnone & _)|(u & _ & Hm & Hpos & _ & Hres)];
    [congruence|].
  rewrite Hres in H.
  destruct (Qle_bool _ _) eqn:Htol; [|discriminate].
  injection H as -> <-. apply Qle_bool_iff in Htol.
  subst matches conf.
  unfold Vocabulary.candidate_matches in Hm.
  destruct (compare_faces_fields L face_engine
              (Routes.known_encoding user) unknown_encoding None)
    as (_ & _ & Hmatch).
  rewrite Hmatch in Hm. apply Qle_bool_iff in Hm.
  split; [exact Hm|]. split; [reflexivity|]. split; [exact Hpos|exact Htol].
Qed.

(** X16: somebody is recognized exactly when some enrolled user matches at
    the engine's tolerance with a positive confidence that is at least the
    configured [FACE_TOLERANCE]; the order of enumeration plays no part in
    whether somebody is. *)
Theorem recognize_match_somebody_iff (app_config : Config.t)
    (users : list Routes.User) :
  Routes.recognize_match L face_engine app_config users unknown_encoding
  <> None
  <->
  exists user,
    In user (Routes.enrolled_users users) /\
    Vocabulary.candidate_matches L face_engine unknown_encoding user = true /\
    0 < Vocabulary.candidate_confidence L face_engine unknown_encoding user /\
    Config.FACE_TOLERANCE app_config
    <= Vocabulary.candidate_confidence L face_engine unknown_encoding user.
Proof.
  fold matches conf.
  destruct (recognize_match_cases app_config users)
    as [(Hnone & Hall)|(u & Hin & Hm & Hpos & Hbest & Hres)].
  - split; [congruence|].
    intros (v & Hv & Hmv & Hposv & _).
    specialize (Hall v Hv Hmv). lra.
  - rewrite Hres.
    destruct (Qle_bool _ _) eqn:Htol.
    + apply Qle_bool_iff in Htol. split; [|discriminate].
      intros _. exists u. auto.
    + split; [congruence|].
      intros (v & Hv & Hmv & _ & Htolv).
      specialize (Hbest v Hv Hmv).
      assert (Hle : Config.FACE_TOLERANCE app_config <= conf u) by lra.
      apply Qle_bool_iff in Hle. congruence.
Qed.

(** X17: when the recognized user is strictly more confident than every
    other matching enrolled user, the same user is recognized with the same
    confidence in whatever order the users are enumerated. *)
Theorem recognize_match_order_independent (app_config : Config.t)
    (users users' : list Routes.User) (user : Routes.User) (c : Q) :
  Permutation users users' ->
  Routes.recognize_match L face_engine app_config users unknown_encoding
  = Some (user, c) ->
  (forall v,
     In v (Routes.enrolled_users users) ->
     Vocabulary.candidate_matches L face_engine unknown_encoding v = true ->
     v = user \/
     Vocabulary.candidate_confidence L face_engine unknown_encoding v
     < Vocabulary.candidate_confidence L face_engine unknown_encoding user) ->
  Routes.recognize_match L face_engine app_config users' unknown_encoding
  = Some (user, c).
Proof.
  fold matches conf. intros Hperm H Hstrict.
  assert (Hsame : forall v,
            In v (Routes.enrolled_users users')
            <-> In v (Routes.enrolled_users users)).
  { intro v. unfold Routes.enrolled_users. rewrite !filter_In.
    split; intros [Hv Hf]; split; auto.
    - apply Permutation_in with users'; [now apply Permutation_sym|exact Hv].
    - apply Permutation_in with users; assumption. }
  destruct (recognize_match_cases app_config users)
    as [(Hnone & _)|(u & Hin & Hm & Hpos & _ & Hres)];
    [congruence|].
  rewrite Hres in H. destruct (Qle_bool _ _) eqn:Htol; [|discriminate].
  injection H as -> <-.
  destruct (recognize_match_cases app_config users')
    as [(_ & Hall)|(u' & Hin' & Hm' & Hpos' & Hbest' & Hres')].
  - apply Hsame in Hin. specialize (Hall user Hin Hm). lra.
  - rewrite Hres'.
    destruct (Hstrict u' (proj1 (Hsame u') Hin') Hm') as [->|Hlt].
    + now rewrite Htol.
    + apply Hsame in Hin. specialize (Hbest' user Hin Hm). lra.
Qed.

End RecognizeMore.

Lemma recognize_match_only_enrolled_witness :
  Routes.recognize_match (Stub.libs Stub.portrait) Stub.face_engine
    Config.default [Stub.student 1 0.5; Stub.student 2 0.2] (Stub.axis 0)
  = Some (Stub.student 2 0.2, 0.8%Q)
  /\ Routes.consent_given (Stub.student 2 0.2) = true.
Proof.
  assert (H : Routes.recognize_match (Stub.libs Stub.portrait)
                Stub.face_engine Config.default
                [Stub.student 1 0.5; Stub.student 2 0.2] (Stub.axis 0)
              = Some (Stub.student 2 0.2, 0.8%Q))
    by (vm_compute; reflexivity).
  split; [exact H|].
  exact (proj1 (proj2 (proj2 (recognize_match_only_enrolled _ _ _ _ _ _ _ H)))).
Defined.

Lemma recognize_match_distance_bounds_witness :
  Routes.recognize_match (Stub.libs Stub.portrait) Stub.face_engine
    Config.default [Stub.student 1 0.5; Stub.student 2 0.2] (Stub.axis 0)
  = Some (Stub.student 2 0.2, 0.8%Q)
  /\ (norm_diff (Stub.libs Stub.portrait)
        (Routes.known_encoding (Stub.student 2 0.2)) (Stub.axis 0)
      <= FaceEngine.tolerance Stub.face_engine)%Q.
Proof.
  assert (H : Routes.recognize_match (Stub.libs Stub.portrait)
                Stub.face_engine Config.default
                [Stub.student 1 0.5; Stub.student 2 0.2] (Stub.axis 0)
              = Some (Stub.student 2 0.2, 0.8%Q))
    by (vm_compute; reflexivity).
  split; [exact H|].
  exact (proj1 (recognize_match_distance_bounds _ _ _ _ _ _ _ H)).
Defined.

Lemma recognize_match_order_independent_witness :
  let users := [Stub.student 1 0.5; Stub.student 2 0.2; Stub.student 3 0.3] in
  let users' := [Stub.student 3 0.3; Stub.student 2 0.2; Stub.student 1 0.5] in
  Permutation users users' /\
  Routes.recognize_match (Stub.libs Stub.portrait) Stub.face_engine
    Config.default users' (Stub.axis 0)
  = Some (Stub.student 2 0.2, 0.8%Q).
Proof.
  intros users users'.
  assert (Hperm : Permutation users users').
  { subst users users'.
    apply perm_trans with [Stub.student 2 0.2; Stub.student 1 0.5;
                           Stub.student 3 0.3]; [apply perm_swap|].
    apply perm_trans with [Stub.student 2 0.2; Stub.student 3 0.3;
                           Stub.student 1 0.5];
      [apply perm_skip, perm_swap|apply perm_swap]. }
  split; [exact Hperm|].
  apply (recognize_match_order_independent (Stub.libs Stub.portrait)
           Stub.face_engine (Stub.axis 0) Config.default users users'
           (Stub.student 2 0.2) 0.8%Q Hperm);
    [vm_compute; reflexivity|].
  intros v Hv _.
  destruct Hv as [<-|[<-|[<-|[]]]];
    [right|left; reflexivity|right];
    apply Qlt_bool_iff; vm_compute; reflexivity.
Defined.

(* ================================================================== *)
(** * enroll_face *)
(* ================================================================== *)

Section EnrollFacts.

Context (L : Libs) (W : Web.Services L).

Lemma lift_at {A} (m : M A) (t : trace) (d : Web.db) :
  Enroll.trace_blind m ->
  Web.lift m (t, d) = (run m, (snd (m t), d)).
Proof.
  intro Hb. unfold Web.lift. cbn [fst snd].
  rewrite <- (Hb t). now destruct (m t).
Qed.

Lemma validate_and_convert_blind (image_bytes : bytes) :
  Enroll.trace_blind (Web.validate_and_convert W image_bytes).
Proof.
  intro t. unfold Web.validate_and_convert. py_unfold. cbn.
  destruct (Image_open L image_bytes) as [img|e]; cbn; [|reflexivity].
  repeat first
    [ progress cbn
    | match goal with
      | |- context [if ?b then _ else _] => destruct b
      | |- context [match ?o with Returned _ => _ | Raised _ => _ end] =>
          destruct o
      end ];
    reflexivity.
Qed.

Lemma preprocess_image_blind (self : FaceEngine.t) (image_bytes : bytes)
    (max_size_mb : Z) :
  Enroll.trace_blind
    (FaceEngine.preprocess_image L self image_bytes max_size_mb).
Proof.
  intro t. rewrite preprocess_image_unfold.
  destruct (_ <? _)%Z; [reflexivity|].
  py_unfold. cbn.
  destruct (Image_open L image_bytes) as [img|e]; cbn; [|reflexivity].
  destruct (negb _); cbn; lib_cases; reflexivity.
Qed.

Lemma validate_image_quality_blind (self : FaceEngine.t) (image : ndarray L)
    (min_face_size : Z) :
  Enroll.trace_blind
    (FaceEngine.validate_image_quality L self image min_face_size).
Proof.
  intro t. unfold FaceEngine.validate_image_quality, FaceEngine.detect_faces.
  py_unfold. cbn.
  destruct (face_locations L image (FaceEngine.model self))
    as [found|e]; cbn; [|reflexivity].
  destruct found as [|[[[top right_] bottom] left_] rest]; cbn;
    [reflexivity|].
  destruct (1 <? _)%Z; cbn; [reflexivity|].
  destruct (_ || _)%bool; reflexivity.
Qed.

Lemma encode_face_blind (self : FaceEngine.t) (image : ndarray L)
    (face_location : option box) :
  Enroll.trace_blind
    (Encoder.encode_face L (Web.face_encodings W) self image face_location).
Proof.
  intro t. unfold Encoder.encode_face, run.
  now destruct (Web.face_encodings W image _ 1%Z).
Qed.

Lemma verify_blind (image_bytes : bytes) (face_location : option box) :
  Enroll.trace_blind (LivenessChecker.verify L image_bytes face_location).
Proof.
  intro t.
  unfold LivenessChecker.verify, LivenessChecker.verify_body,
    LivenessChecker.check_blur, LivenessChecker.check_color_distribution,
    LivenessChecker.detect_eyes.
  py_unfold. cbn.
  destruct face_location as [loc|]; lib_cases; reflexivity.
Qed.

End EnrollFacts.

Ltac solve_blind :=
  first [ apply validate_and_convert_blind | apply preprocess_image_blind
        | apply validate_image_quality_blind | apply encode_face_blind
        | apply verify_blind ].

Section EnrollTheorems.

Context (L : Libs) (W : Web.Services L).
Context (face_engine : FaceEngine.t) (app_config : Config.t).

Import Web Enroll.

Lemma hbind_lift {A B} (m : M A) (k : A -> H B) (t : trace) (d : db) :
  trace_blind m ->
  hbind (lift m) k (t, d)
  = match run m with
    | Returned a => k a (snd (m t), d)
    | Raised e => (Raised e, (snd (m t), d))
    end.
Proof.
  intro Hb. unfold hbind. rewrite (lift_at m t d Hb).
  now destruct (run m).
Qed.

(** An early answer of the conversion stage is a 400. *)
Lemma validate_and_convert_early (image_bytes : bytes) (r : response) :
  run (validate_and_convert W image_bytes) = Returned (inl r) ->
  status r = 400%Z.
Proof.
  unfold validate_and_convert. py_unfold. cbn.
  destruct (Image_open L image_bytes) as [img|e]; cbn;
    [|now intros [= <-]].
  repeat first
    [ progress cbn
    | match goal with
      | |- context [if ?b then _ else _] => destruct b
      | |- context [match ?o with Returned _ => _ | Raised _ => _ end] =>
          destruct o
      end ];
    intros [= <-]; reflexivity.
Qed.

(** A valid quality report carries a box of at least the minimum size. *)
Lemma validate_valid_dimensions (image : ndarray L) (min_face_size : Z)
    (loc : box) (w h : Z) :
  run (FaceEngine.validate_image_quality L face_engine image min_face_size)
  = Returned (FaceEngine.Valid loc w h) ->
  face_locations L image (FaceEngine.model face_engine) = Returned [loc] /\
  (min_face_size <= w)%Z /\ (min_face_size <= h)%Z.
Proof.
  unfold FaceEngine.validate_image_quality, FaceEngine.detect_faces.
  py_unfold. cbn.
  destruct (face_locations L image (FaceEngine.model face_engine))
    as [found|e]; cbn; [|discriminate].
  destruct found as [|[[[top right_] bottom] left_] rest]; cbn;
    [discriminate|].
  destruct (1 <? _)%Z eqn:Hlen; cbn; [discriminate|].
  destruct (_ || _)%bool eqn:Hsmall; cbn; [discriminate|].
  intros [= <- <- <-].
  apply orb_false_iff in Hsmall. destruct Hsmall as [Hw Hh].
  apply Z.ltb_ge in Hw, Hh, Hlen.
  destruct rest; [repeat split; assumption|]. cbn [length] in Hlen. lia.
Qed.

(** The whole case analysis of a served enrollment: one goal per path
    through the handler. *)
Ltac enroll_cases :=
  unfold serve, fresh, final_db, answer, enroll_face, htry;
  repeat first
    [ progress cbv beta iota zeta
    | progress cbn [negb fst snd]
    | match goal with
      | |- context [hbind (lift ?m) _ _] =>
          rewrite (hbind_lift m) by solve_blind;
          let H := fresh "Hrun" in destruct (run m) eqn:H
      | |- context [match ?x with _ => _ end] => is_var x; destruct x
      | |- context [if ?b then _ else _] =>
          let H := fresh "Hif" in destruct b eqn:H
      | |- context [match files_get ?f ?n with _ => _ end] =>
          let H := fresh "Hfile" in destruct (files_get f n) eqn:H
      end ];
  unfold hbind, details_item, audit, commit_encoding, hret, hraise;
  repeat first
    [ progress cbv beta iota zeta
    | progress cbn [negb fst snd]
    | match goal with
      | |- context [match ?o with Returned _ => _ | Raised _ => _ end] =>
          let H := fresh "Hsvc" in destruct o eqn:H
      | |- context [match LivenessChecker.details ?r with _ => _ end] =>
          let H := fresh "Hdetails" in
          destruct (LivenessChecker.details r) eqn:H
      end ].

(** One path through the handler, followed along known outcomes. *)
Ltac enroll_forward :=
  unfold serve, fresh, final_db, answer, enroll_face, htry;
  repeat first
    [ progress cbv beta iota zeta
    | progress cbn [negb fst snd]
    | rewrite hbind_lift by solve_blind
    | match goal with
      | H : run ?m = _ |- context [run ?m] => rewrite H
      | H : (?a <? ?b)%Z = _ |- context [(?a <? ?b)%Z] => rewrite H
      | H : files_get ?f ?n = _ |- context [files_get ?f ?n] => rewrite H
      | H : Routes.consent_given ?u = _
        |- context [Routes.consent_given ?u] => rewrite H
      end ];
  unfold hbind, details_item, audit, commit_encoding, hret, hraise.

(** X18: [enroll_face] always answers, with one of the statuses 201, 400,
    403, 422 and 500.  A 201 means an encoding was committed; a 400 or a 403
    leaves the database as it was, audit log included; a 422 commits no
    encoding. *)
Theorem enroll_face_answers (current_user : Routes.User) (req : request) :
  let served :=
    serve (enroll_face L W face_engine app_config current_user req) in
  exists resp,
    answer served = Returned resp /\
    In (status resp) [201; 400; 403; 422; 500]%Z /\
    (status resp = 201%Z -> stored_encoding (final_db served) <> None) /\
    (status resp = 400%Z \/ status resp = 403%Z ->
     final_db served = snd fresh) /\
    (status resp = 422%Z -> stored_encoding (final_db served) = None).
Proof.
  cbv zeta. enroll_cases.
  all: eexists; split; [reflexivity|].
  all: try match goal with
           | H : run (validate_and_convert _ _) = Returned (inl _) |- _ =>
               rewrite (validate_and_convert_early _ _ H)
           end.
  all: cbn; split; [repeat first [left; reflexivity | right]|].
  all: repeat split; try reflexivity; try discriminate;
    intros [H|H]; discriminate H.
Qed.

(** X19: an encoding is committed only at the end of the whole pipeline: the
    user consents, a non-empty photo was uploaded and converted to a JPEG
    within the configured size, preprocessing gave an image, exactly one face
    of at least 80 by 80 pixels was found in it, the committed vector is the
    first encoding of that face, and the liveness result for the JPEG and
    that face is verified and free of error. *)
Theorem enroll_face_stores_only_after_all_checks
    (current_user : Routes.User) (req : request) (enc : encoding) :
  stored_encoding
    (final_db (serve (enroll_face L W face_engine app_config current_user req)))
  = Some enc ->
  Routes.consent_given current_user = true /\
  exists upload jpeg image loc w h r,
    files_get (files req) "photo" = Some upload /\ upload <> [] /\
    run (validate_and_convert W upload) = Returned (inr jpeg) /\
    (Z.of_nat (length jpeg)
     <= Config.MAX_IMAGE_SIZE_MB app_config * 1024 * 1024)%Z /\
    run (FaceEngine.preprocess_image L face_engine jpeg 5)
    = Returned (Some image, None) /\
    face_locations L image (FaceEngine.model face_engine) = Returned [loc] /\
    run (FaceEngine.validate_image_quality L face_engine image 80)
    = Returned (FaceEngine.Valid loc w h) /\
    (80 <= w)%Z /\ (80 <= h)%Z /\
    run (Encoder.encode_face L (face_encodings W) face_engine image (Some loc))
    = Returned (Some enc) /\
    run (LivenessChecker.verify L jpeg (Some loc)) = Returned r /\
    LivenessChecker.liveness_verified r = true /\
    session_commit W = Returned tt.
Proof.
  enroll_cases; cbn; try discriminate.
  all: intros [= <-].
  all: match goal with
       | H : negb (Routes.consent_given _) = false |- _ =>
           apply negb_false_iff in H
       end.
  all: match goal with
       | H : negb (LivenessChecker.liveness_verified _) = false |- _ =>
           apply negb_false_iff in H
       end.
  all: match goal with
       | H : (_ <? _)%Z = false |- _ => apply Z.ltb_ge in H
       end.
  all: match goal with
       | H : run (FaceEngine.validate_image_quality _ _ _ _) = _ |- _ =>
           destruct (validate_valid_dimensions _ _ _ _ _ H) as (? & ? & ?)
       end.
  all: match goal with
       | H : session_commit W = Returned ?u |- _ => destruct u
       end.
  all: split; [assumption|].
  all: do 7 eexists.
  all: repeat match goal with |- _ /\ _ => split end; try eassumption;
    try discriminate; reflexivity.
Qed.

(** X20: without consent the answer is 403 whatever the request carries, and
    nothing else happens: no library call, no commit, no audit entry.  And a
    403 is answered only when consent is missing. *)
Theorem enroll_face_without_consent (current_user : Routes.User)
    (req : request) :
  (Routes.consent_given current_user = false ->
   forall w,
     enroll_face L W face_engine app_config current_user req w
     = (Returned
          (respond
             [("error", JString "Biometric consent required");
              ("action",
               JString "Please provide consent at /api/auth/consent")]
             403), w)) /\
  (forall resp,
     answer (serve (enroll_face L W face_engine app_config current_user req))
     = Returned resp ->
     status resp = 403%Z -> Routes.consent_given current_user = false).
Proof.
  split.
  - intros H w. unfold enroll_face. now rewrite H.
  - intro resp. enroll_cases.
    all: intros [= <-]; cbn.
    all: try match goal with
             | H : run (validate_and_convert _ _) = Returned (inl _) |- _ =>
                 rewrite (validate_and_convert_early _ _ H)
             end.
    all: try discriminate.
    all: intros _.
    all: match goal with
         | H : negb (Routes.consent_given _) = true |- _ =>
             now apply negb_true_iff in H
         end.
Qed.

(** X21: when the liveness evaluation itself fails (its body raises), the
    handler does not answer 422: reading ['details'] off the error result
    raises [KeyError], so the answer is 500 with the text
    "Enrollment failed: 'details'"; nothing is committed and no audit entry
    is written. *)
Theorem enroll_face_liveness_error_is_500
    (current_user : Routes.User) (req : request)
    (upload jpeg : bytes) (image : ndarray L) (loc : box) (w h : Z)
    (enc : encoding) (e : exn) :
  Routes.consent_given current_user = true ->
  files_get (files req) "photo" = Some upload -> upload <> [] ->
  run (validate_and_convert W upload) = Returned (inr jpeg) ->
  (Z.of_nat (length jpeg)
   <= Config.MAX_IMAGE_SIZE_MB app_config * 1024 * 1024)%Z ->
  run (FaceEngine.preprocess_image L face_engine jpeg 5)
  = Returned (Some image, None) ->
  run (FaceEngine.validate_image_quality L face_engine image 80)
  = Returned (FaceEngine.Valid loc w h) ->
  run (Encoder.encode_face L (face_encodings W) face_engine image (Some loc))
  = Returned (Some enc) ->
  run (LivenessChecker.verify_body L jpeg (Some loc)) = Raised e ->
  let served :=
    serve (enroll_face L W face_engine app_config current_user req) in
  answer served
  = Returned (respond
                [("error", JString "Enrollment failed: 'details'")] 500) /\
  final_db served = snd fresh.
Proof.
  intros Hconsent Hphoto Hnonempty Hconv Hfit Hpre Hquality Hencode Hbody.
  pose proof (verify_handler L jpeg (Some loc) e Hbody) as Hverify.
  apply Z.ltb_ge in Hfit.
  destruct upload as [|b0 bs]; [contradiction|].
  cbv zeta. enroll_forward. cbn. split; reflexivity.
Qed.

(** X22: when the liveness result is a denial with its breakdown (some check
    did not pass), the answer is 422 with the details, no encoding is
    committed, and, the audit commit succeeding, exactly one audit entry is
    written, carrying the liveness confidence as its score. *)
Theorem enroll_face_liveness_denial_is_audited
    (current_user : Routes.User) (req : request)
    (upload jpeg : bytes) (image : ndarray L) (loc : box) (w h : Z)
    (enc : encoding) (r : LivenessChecker.LivenessResult) (text : string) :
  Routes.consent_given current_user = true ->
  files_get (files req) "photo" = Some upload -> upload <> [] ->
  run (validate_and_convert W upload) = Returned (inr jpeg) ->
  (Z.of_nat (length jpeg)
   <= Config.MAX_IMAGE_SIZE_MB app_config * 1024 * 1024)%Z ->
  run (FaceEngine.preprocess_image L face_engine jpeg 5)
  = Returned (Some image, None) ->
  run (FaceEngine.validate_image_quality L face_engine image 80)
  = Returned (FaceEngine.Valid loc w h) ->
  run (Encoder.encode_face L (face_encodings W) face_engine image (Some loc))
  = Returned (Some enc) ->
  run (LivenessChecker.verify L jpeg (Some loc)) = Returned r ->
  LivenessChecker.liveness_verified r = false ->
  LivenessChecker.details r = Some text ->
  (forall entry, log_audit W entry = Returned tt) ->
  let served :=
    serve (enroll_face L W face_engine app_config current_user req) in
  answer served
  = Returned (respond
                [("error", JString "Liveness verification failed");
                 ("details", JString text);
                 ("security_alert", JBool true)] 422) /\
  stored_encoding (final_db served) = None /\
  audit_log (final_db served)
  = [{| actor_id := Routes.id current_user;
        action := "face_enroll_failed";
        resource_type := "face";
        resource_id := None;
        ip_address := remote_addr req;
        status_code := 422;
        error_message :=
          Some (String.append "Liveness check failed: " text);
        face_match_confidence := None;
        liveness_score := Some (LivenessChecker.confidence r) |}].
Proof.
  intros Hconsent Hphoto Hnonempty Hconv Hfit Hpre Hquality Hencode Hverify
    Hdenied Htext Haudit.
  apply Z.ltb_ge in Hfit.
  destruct upload as [|b0 bs]; [contradiction|].
  cbv zeta. enroll_forward.
  rewrite Hdenied. cbn [negb]. rewrite Htext. cbv beta iota.
  rewrite Haudit. cbn. repeat split; reflexivity.
Qed.

End EnrollTheorems.

Lemma enroll_face_stores_only_after_all_checks_witness :
  let served :=
    Enroll.serve
      (Enroll.enroll_face (Stub.libs Stub.portrait)
         (Enroll.services Stub.portrait [Stub.axis 0.3] true true)
         Stub.face_engine Config.default Enroll.newcomer
         Enroll.photo_request) in
  Web.stored_encoding (Enroll.final_db served) = Some (Stub.axis 0.3) /\
  Enroll.answer served
  = Returned
      (Web.respond
         [("message", Web.JString "Face enrolled successfully");
          ("encoding_id", Web.JString "enc_7");
          ("quality_score", Web.JNumber 0.95);
          ("liveness_verified", Web.JBool true)] 201) /\
  Routes.consent_given Enroll.newcomer = true.
Proof.
  intro served.
  assert (H : Web.stored_encoding (Enroll.final_db served)
              = Some (Stub.axis 0.3)) by (vm_compute; reflexivity).
  split; [exact H|]. split; [vm_compute; reflexivity|].
  exact (proj1 (enroll_face_stores_only_after_all_checks _ _ _ _ _ _ _ H)).
Defined.

Lemma enroll_face_without_consent_witness :
  let user := {| Routes.id := 8; Routes.face_encoding := None;
                 Routes.is_active := true; Routes.consent_given := false |} in
  Routes.consent_given user = false /\
  Enroll.serve
    (Enroll.enroll_face (Stub.libs Stub.portrait)
       (Enroll.services Stub.portrait [Stub.axis 0.3] true true)
       Stub.face_engine Config.default user Enroll.photo_request)
  = (Returned
       (Web.respond
          [("error", Web.JString "Biometric consent required");
           ("action",
            Web.JString "Please provide consent at /api/auth/consent")]
          403), Enroll.fresh).
Proof.
  intro user. split; [reflexivity|].
  exact (proj1 (enroll_face_without_consent (Stub.libs Stub.portrait)
                  (Enroll.services Stub.portrait [Stub.axis 0.3] true true)
                  Stub.face_engine Config.default user Enroll.photo_request)
           eq_refl Enroll.fresh).
Defined.

Lemma enroll_face_liveness_error_is_500_witness :
  let served :=
    Enroll.serve
      (Enroll.enroll_face Samples.failing_crop
         (Enroll.services_failing_crop [Stub.axis 0.3])
         Stub.face_engine Config.default Enroll.newcomer
         Enroll.photo_request) in
  run (LivenessChecker.verify_body Samples.failing_crop
         [Byte.xff; Byte.xd8; Byte.xff; Byte.xdb]
         (Some (40, 190, 190, 40)%Z))
  = Raised (Exn "IndexError" "too many indices for array") /\
  Enroll.answer served
  = Returned
      (Web.respond
         [("error", Web.JString "Enrollment failed: 'details'")] 500) /\
  Enroll.final_db served = snd Enroll.fresh.
Proof.
  intro served. split; [reflexivity|].
  apply (enroll_face_liveness_error_is_500 Samples.failing_crop
           (Enroll.services_failing_crop [Stub.axis 0.3])
           Stub.face_engine Config.default Enroll.newcomer
           Enroll.photo_request Stub.upload
           [Byte.xff; Byte.xd8; Byte.xff; Byte.xdb] 0%Z
           (40, 190, 190, 40)%Z 150%Z 150%Z (Stub.axis 0.3)
           (Exn "IndexError" "too many indices for array"));
    first [reflexivity | discriminate | cbn; lia].
Defined.

Lemma enroll_face_liveness_denial_is_audited_witness :
  let served :=
    Enroll.serve
      (Enroll.enroll_face (Stub.libs Samples.one_eyed_portrait)
         (Enroll.services Samples.one_eyed_portrait [Stub.axis 0.3] true true)
         Stub.face_engine Config.default Enroll.newcomer
         Enroll.photo_request) in
  (forall entry,
     Web.log_audit
       (Enroll.services Samples.one_eyed_portrait [Stub.axis 0.3] true true)
       entry = Returned tt) /\
  Enroll.answer served
  = Returned
      (Web.respond
         [("error", Web.JString "Liveness verification failed");
          ("details", Web.JString "2/3 checks passed");
          ("security_alert", Web.JBool true)] 422) /\
  Web.stored_encoding (Enroll.final_db served) = None.
Proof.
  intro served.
  assert (Haudit : forall entry,
            Web.log_audit
              (Enroll.services Samples.one_eyed_portrait [Stub.axis 0.3]
                 true true) entry = Returned tt) by reflexivity.
  split; [exact Haudit|].
  destruct (enroll_face_liveness_denial_is_audited
              (Stub.libs Samples.one_eyed_portrait)
              (Enroll.services Samples.one_eyed_portrait [Stub.axis 0.3]
                 true true)
              Stub.face_engine Config.default Enroll.newcomer
              Enroll.photo_request Stub.upload
              [Byte.xff; Byte.xd8; Byte.xff; Byte.xdb] 0%Z
              (40, 190, 190, 40)%Z 150%Z 150%Z (Stub.axis 0.3)
              {| LivenessChecker.liveness_verified := false;
                 LivenessChecker.confidence := 2 # 3;
                 LivenessChecker.checks :=
                   Some {| LivenessChecker.blur := (true, 250%Q);
                           LivenessChecker.color_distribution :=
                             (true, 30 # 100);
                           LivenessChecker.eyes_detected :=
                             Some (false, 1%Z) |};
                 LivenessChecker.details := Some "2/3 checks passed";
                 LivenessChecker.error := None |}
              "2/3 checks passed"
              eq_refl eq_refl ltac:(discriminate) eq_refl ltac:(cbn; lia)
              eq_refl eq_refl eq_refl eq_refl eq_refl eq_refl Haudit)
    as (Hanswer & Hstored & _).
  split; [exact Hanswer|exact Hstored].
Defined.

(* ================================================================== *)
(** * Enrolled encodings are found again *)
(* ================================================================== *)

Section RoundTrip.

Context (L : Libs) (face_engine : FaceEngine.t) (unknown_encoding : encoding).

Local Open Scope Q_scope.

(** X23: when the submitted encoding is at distance zero from the encoding
    of an enrolled user, distances are never negative, the engine's tolerance
    is not negative and the configured [FACE_TOLERANCE] is at most one,
    somebody is recognized: an enrolled user who matches, with confidence
    one. *)
Theorem recognize_match_finds_identical_encoding (app_config : Config.t)
    (users : list Routes.User) (user : Routes.User) :
  In user (Routes.enrolled_users users) ->
  norm_diff L (Routes.known_encoding user) unknown_encoding == 0 ->
  (forall k, 0 <= norm_diff L k unknown_encoding) ->
  0 <= FaceEngine.tolerance face_engine ->
  Config.FACE_TOLERANCE app_config <= 1 ->
  exists found c,
    Routes.recognize_match L face_engine app_config users unknown_encoding
    = Some (found, c) /\
    c == 1 /\
    In found (Routes.enrolled_users users) /\
    Vocabulary.candidate_matches L face_engine unknown_encoding found = true.
Proof.
  intros Hin Hzero Hnonneg Htol Hcfg.
  assert (Hfields : forall v,
            Vocabulary.candidate_confidence L face_engine unknown_encoding v
            = 1 - norm_diff L (Routes.known_encoding v) unknown_encoding /\
            Vocabulary.candidate_matches L face_engine unknown_encoding v
            = Qle_bool
                (norm_diff L (Routes.known_encoding v) unknown_encoding)
                (FaceEngine.tolerance face_engine)).
  { intro v.
    unfold Vocabulary.candidate_confidence, Vocabulary.candidate_matches.
    destruct (compare_faces_fields L face_engine (Routes.known_encoding v)
                unknown_encoding None) as (_ & Hc & Hm).
    split; [exact Hc|exact Hm]. }
  assert (Hm : Vocabulary.candidate_matches L face_engine unknown_encoding
                 user = true).
  { rewrite (proj2 (Hfields user)). apply Qle_bool_iff. lra. }
  destruct (recognize_match_cases L face_engine unknown_encoding
              app_config users)
    as [(_ & Hall)|(u & Hinu & Hmu & _ & Hbest & Hres)].
  - specialize (Hall user Hin Hm). rewrite (proj1 (Hfields user)) in Hall.
    lra.
  - specialize (Hbest user Hin Hm).
    rewrite (proj1 (Hfields user)), (proj1 (Hfields u)) in Hbest.
    specialize (Hnonneg (Routes.known_encoding u)).
    exists u, (Vocabulary.candidate_confidence L face_engine
                 unknown_encoding u).
    rewrite Hres. rewrite (proj1 (Hfields u)).
    assert (Hle : Config.FACE_TOLERANCE app_config
                  <= 1 - norm_diff L (Routes.known_encoding u)
                           unknown_encoding) by lra.
    apply Qle_bool_iff in Hle. rewrite Hle.
    split; [reflexivity|]. split; [lra|]. split; [exact Hinu|exact Hmu].
Qed.

End RoundTrip.

Lemma recognize_match_finds_identical_encoding_witness :
  let users := [Stub.student 1 0.5; Stub.student 2 0.3] in
  In (Stub.student 2 0.3) (Routes.enrolled_users users) /\
  exists found c,
    Routes.recognize_match (Stub.libs Stub.portrait) Stub.face_engine
      Config.default users (Stub.axis 0.3) = Some (found, c) /\
    (c == 1)%Q /\
    In found (Routes.enrolled_users users) /\
    Vocabulary.candidate_matches (Stub.libs Stub.portrait) Stub.face_engine
      (Stub.axis 0.3) found = true.
Proof.
  intro users.
  assert (Hin : In (Stub.student 2 0.3) (Routes.enrolled_users users))
    by (right; left; reflexivity).
  split; [exact Hin|].
  apply (recognize_match_finds_identical_encoding (Stub.libs Stub.portrait)
           Stub.face_engine (Stub.axis 0.3) Config.default users
           (Stub.student 2 0.3) Hin).
  - vm_compute; reflexivity.
  - intro k. cbn [norm_diff Stub.libs].
    assert (Hl1 : forall a b, (0 <= Stub.l1_distance a b)%Q).
    { induction a as [|x a IH]; intros [|y b]; cbn [Stub.l1_distance];
        try apply Qle_refl.
      pose proof (Qabs_nonneg (x - y)). pose proof (IH b). lra. }
    apply Hl1.
  - apply Qle_bool_iff; vm_compute; reflexivity.
  - apply Qle_bool_iff; vm_compute; reflexivity.
Defined.

(* ================================================================== *)
(** * recognize_face, up to the match *)
(* ================================================================== *)

Section RecognizeFace.

Context (L : Libs) (face_encodings : Encoder.face_encodings_fn L).
Context (face_engine : FaceEngine.t) (app_config : Config.t).



(** X25: [recognize_face] always reaches an answer or a match.  An answer
    given before the match is a 400 or a 500.  A match is the result of the
    best-match scan for the first encoding the encoder finds in the
    preprocessed picture, however many faces it finds there. *)
Theorem recognize_face_match_is_scan_of_first_encoding
    (users : list Routes.User) (req : Recognize.request) :
  let m := Recognize.recognize_face_match L face_encodings face_engine
             app_config users req in
  (exists r, run m = Returned (inl r) /\
             (Web.status r = 400%Z \/ Web.status r = 500%Z)) \/
  (exists upload jpeg image unknown others,
     Web.files_get (Recognize.files req) "photo" = Some upload /\
     run (Recognize.validate_and_convert L upload) = Returned (inr jpeg) /\
     run (FaceEngine.preprocess_image L face_engine jpeg 5)
     = Returned (Some image, None) /\
     face_encodings image None 1%Z = Returned (unknown :: others) /\
     run m = Returned
               (inr (Routes.recognize_match L face_engine app_config users
                       unknown))).
Proof.
  cbv zeta.
  destruct (Web.files_get (Recognize.files req) "photo") as [upload|]
    eqn:Hfile;
    [|left; unfold Recognize.recognize_face_match; rewrite Hfile;
      eexists; split; [reflexivity|now left]].
  destruct upload as [|b0 bs];
    [left; unfold Recognize.recognize_face_match; rewrite Hfile;
     destruct (Recognize.falsy_field _);
     eexists; (split; [reflexivity|now left])|].
  unfold Recognize.recognize_face_match. rewrite Hfile.
  destruct (Recognize.falsy_field _);
    [left; eexists; split; [reflexivity|now left]|].
  cbv zeta.
  assert (Hstep : forall A B (m : M A) (k : A -> M B) (t : trace),
            Enroll.trace_blind m ->
            bind m k t = match run m with
                         | Returned a => k a (snd (m t))
                         | Raised e => (Raised e, snd (m t))
                         end).
  { intros A B m k t Hb. unfold bind. rewrite <- (Hb t).
    now destruct (m t). }
  assert (Hconv_blind : Enroll.trace_blind
                          (Recognize.validate_and_convert L (b0 :: bs))).
  { intro t. unfold Recognize.validate_and_convert. py_unfold. cbn.
    destruct (Image_open L (b0 :: bs)) as [img|e]; cbn; [|reflexivity].
    destruct (negb _); cbn; lib_cases; reflexivity. }
  assert (Hconv_early : forall r,
            run (Recognize.validate_and_convert L (b0 :: bs))
            = Returned (inl r) -> Web.status r = 400%Z).
  { intro r. unfold Recognize.validate_and_convert. py_unfold. cbn.
    destruct (Image_open L (b0 :: bs)) as [img|e]; cbn;
      [|now intros [= <-]].
    destruct (negb _); cbn; lib_cases; cbn; intros [= <-]; reflexivity. }
  unfold run at 1 4. unfold try_except.
  rewrite (Hstep _ _ _ _ _ Hconv_blind).
  destruct (run (Recognize.validate_and_convert L (b0 :: bs)))
    as [[early|jpeg]|e] eqn:Hconv; cbv beta iota.
  - left. exists early. split; [reflexivity|left; now apply Hconv_early].
  - rewrite (Hstep _ _ _ _ _ (preprocess_image_blind L face_engine jpeg 5)).
    destruct (run (FaceEngine.preprocess_image L face_engine jpeg 5))
      as [[[image|] [text|]]|e] eqn:Hpre; cbv beta iota;
      try (destruct (truthy_str text));
      try (left; eexists; split; [reflexivity|cbn; tauto]).
    unfold bind, Encoder.encode_face, ret.
    destruct (face_encodings image None 1%Z) as [[|unknown others]|e]
      eqn:Henc; cbn [fst];
      try (left; eexists; split; [reflexivity|cbn; tauto]).
    right. exists (b0 :: bs), jpeg, image, unknown, others.
    repeat split; assumption.
  - left. eexists. split; [reflexivity|cbn; tauto].
Qed.

End RecognizeFace.

(** Two faces in the picture: the first encoding alone decides, and the
    student at distance zero from it is recognized. *)
Lemma recognize_face_with_two_faces :
  run (Recognize.recognize_face_match (Stub.libs Stub.portrait)
         Recognize.two_faces Stub.face_engine Config.default
         [Stub.student 1 0.9; Stub.student 2 0.2] Recognize.photo_request)
  = Returned (inr (Some (Stub.student 2 0.2, 100 # 100))).
Proof. vm_compute. reflexivity. Qed.

